(** * The RACF audit cog (racf_audit/racf_audit.py)

    A shallow embedding of the clan/member roster reconciliation code:
    the identity linker ([DiscordUsers]), the clan registry ([clans],
    [clan_name_to_role]), the roster cache ([save_to_cache],
    [load_from_cache]), the fetch-or-fallback operation
    ([family_clan_models], [family_member_models]) and the audit command
    ([racfaudit_run]).

    Python objects that the code mutates are modelled by explicit state:
    the cache directory and the settings live in a [world], the dictionary
    [clan_defaults] lives in a heap of that world and [clans_out] holds
    references into it, the memoised [_user_list] of a [DiscordUsers]
    object is threaded through its methods.  Exceptions are values of
    [exn]; a raised exception keeps the state reached so far. *)

From Stdlib Require Import Ascii.
From stdpp Require Import base strings list gmap.

Local Open Scope string_scope.
Local Open Scope list_scope.

(** ** Python exceptions and results *)

Inductive exn : Type :=
  | AttributeError (type_name attr : string)
  | KeyError (key : string)
  | FileNotFoundError (path : string)
  | APIError
  | OtherError (msg : string).

Inductive result (A : Type) : Type :=
  | Ok (a : A)
  | Raise (e : exn).
Arguments Ok {A} a.
Arguments Raise {A} e.

#[global] Instance result_ret : MRet result := λ A a, Ok a.
#[global] Instance result_bind : MBind result := λ A B f r,
  match r with
  | Ok a => f a
  | Raise e => Raise e
  end.

(** ** os.path (POSIX flavour) *)

Module os_path.

Definition startswith_sep (s : string) : bool :=
  match s with
  | String c _ => bool_decide (c = "/"%char)
  | EmptyString => false
  end.

Fixpoint endswith_sep (s : string) : bool :=
  match s with
  | EmptyString => false
  | String c EmptyString => bool_decide (c = "/"%char)
  | String _ s' => endswith_sep s'
  end.

(** One round of the loop of [posixpath.join]. *)
Definition join_step (path b : string) : string :=
  if startswith_sep b then b
  else if bool_decide (path = "") || endswith_sep path then path +:+ b
  else path +:+ "/" +:+ b.

Definition join (a : string) (p : list string) : string :=
  foldl join_step a p.

End os_path.

Definition PATH : string := os_path.join "data" ["racf_audit"].

(** ** The chat host (discord.py objects) *)

Record Role : Type := mkRole {
  role_id : string;
  role_name : string
}.

(** discord.py compares roles by their id. *)
Definition role_eqb (a b : Role) : bool := bool_decide (role_id a = role_id b).

Record Member : Type := mkMember {
  member_id : string;
  member_display : string;
  member_roles : list Role
}.

Record Server : Type := mkServer {
  server_roles : list Role;
  server_members : list Member
}.

(** [discord.utils.get(roles, name=...)]: first element with that name. *)
Definition utils_get_role (roles : list Role) (name : string) : option Role :=
  find (λ r, bool_decide (role_name r = name)) roles.

(** [server.get_member(member_id)]. *)
Definition get_member (server : Server) (id : string) : option Member :=
  find (λ m, bool_decide (member_id m = id)) (server_members server).

(** [role in roles], where [role] may be [None]. *)
Definition role_in (role : option Role) (roles : list Role) : bool :=
  match role with
  | Some r => existsb (role_eqb r) roles
  | None => false
  end.

Definition server_role (server : Server) (role_name : string) : option Role :=
  utils_get_role (server_roles server) role_name.

Definition member_has_role (server : Server) (member : Member)
    (role_name : string) : bool :=
  let role := utils_get_role (server_roles server) role_name in
  role_in role (member_roles member).

(** ** Identity linker: DiscordUser, DiscordUsers *)

Module DiscordUser.
(** Discord user = player tag association. *)
Record t : Type := mk {
  user : Member;
  tag : string
}.
End DiscordUser.

Module DiscordUsers.

(** The [crclan] cog is represented by the table its manager returns
    from [get_players(server)]: the items of a dictionary from chat
    member id to player tag, in iteration order. *)
Record t : Type := mk {
  crclan_players : list (string * string);
  server : Server;
  _user_list : option (list DiscordUser.t)
}.

Definition init (players : list (string * string)) (server : Server) : t :=
  {| crclan_players := players; server := server; _user_list := None |}.

(** The loop of the [user_list] property. *)
Fixpoint build (server : Server) (players : list (string * string))
    : list DiscordUser.t :=
  match players with
  | [] => []
  | (member_id, player_tag) :: rest =>
      match get_member server member_id with
      | Some user => DiscordUser.mk user player_tag :: build server rest
      | None => build server rest
      end
  end.

(** The [user_list] property: computed on first use, then remembered. *)
Definition user_list (self : t) : list DiscordUser.t * t :=
  match _user_list self with
  | None =>
      let out := build (server self) (crclan_players self) in
      (out, {| crclan_players := crclan_players self;
               server := server self;
               _user_list := Some out |})
  | Some l => (l, self)
  end.

(** The loop of [tag_to_member] over the user list. *)
Fixpoint scan (l : list DiscordUser.t) (tag : string) : option Member :=
  match l with
  | [] => None
  | u :: rest =>
      if bool_decide (DiscordUser.tag u = tag) then Some (DiscordUser.user u)
      else scan rest tag
  end.

Definition tag_to_member (self : t) (tag : string) : option Member * t :=
  let '(l, self') := user_list self in
  (scan l tag, self').

(** An object as the constructor and the property leave it: the memo is
    empty or holds the list built from the table. *)
Definition consistent (self : t) : Prop :=
  _user_list self = None ∨
  _user_list self = Some (build (server self) (crclan_players self)).

End DiscordUsers.

(** ** API models (crapipy)

    The attributes the cog reads from the models of the API client: a
    member has a tag, a name, a trophy count, a clan role and the name of
    its clan; the cog itself adds [clan] (the owning clan model, kept here
    by its tag) and [discord_member]. *)

Inductive ClanRole : Type := role_member | role_elder | role_coleader | role_leader.

#[global] Instance ClanRole_eq_dec : EqDecision ClanRole.
Proof. solve_decision. Defined.

Module MemberModel.
Record t : Type := mk {
  tag : string;
  name : string;
  trophies : Z;
  role : ClanRole;
  clan_name : string;
  clan : option string;
  discord_member : option Member
}.

Definition role_is_member (m : t) : bool := bool_decide (role m = role_member).
Definition role_is_elder (m : t) : bool := bool_decide (role m = role_elder).
Definition role_is_coleader (m : t) : bool := bool_decide (role m = role_coleader).
Definition role_is_leader (m : t) : bool := bool_decide (role m = role_leader).

(** [member_model.clan = clan_model] *)
Definition set_clan (m : t) (clan_tag : string) : t :=
  mk (tag m) (name m) (trophies m) (role m) (clan_name m) (Some clan_tag)
     (discord_member m).

(** [member_model.discord_member = user] *)
Definition set_discord_member (m : t) (user : option Member) : t :=
  mk (tag m) (name m) (trophies m) (role m) (clan_name m) (clan m) user.
End MemberModel.

Module ClanModel.
Record t : Type := mk {
  tag : string;
  name : string;
  members : list MemberModel.t
}.
End ClanModel.

(** What the cog uses of [crapipy.models.Clan] and of the JSON files of
    [dataIO]: the constructor from a decoded JSON document and [to_dict]. *)
Class Crapipy : Type := {
  json : Type;
  Clan : json → ClanModel.t;
  to_dict : ClanModel.t → json
}.

(** ** Clan registry (family_config.yaml) *)

Module ConfigClan.
Record t : Type := mk {
  name : string;
  tag : string;
  role_name : string;
  type : string
}.
End ConfigClan.

Module RACFClan.
Record t : Type := mk {
  name : string;
  tag : string;
  role : option Role;
  membership_type : string;
  model : option ClanModel.t
}.
End RACFClan.

(** ** Member audit object *)

Module MemberAudit.
Record t : Type := mk {
  member_model : MemberModel.t;
  server : Server;
  clans : list RACFClan.t
}.

Definition discord_member (self : t) : option Member :=
  MemberModel.discord_member (member_model self).

Definition has_discord (self : t) : bool :=
  match discord_member self with
  | Some _ => true
  | None => false
  end.

Definition api_clan_name (self : t) : string :=
  MemberModel.clan_name (member_model self).
Definition api_is_member (self : t) : bool :=
  MemberModel.role_is_member (member_model self).
Definition api_is_elder (self : t) : bool :=
  MemberModel.role_is_elder (member_model self).
Definition api_is_coleader (self : t) : bool :=
  MemberModel.role_is_coleader (member_model self).
Definition api_is_leader (self : t) : bool :=
  MemberModel.role_is_leader (member_model self).

(** [member_has_role(self.server, self.discord_member, role_name)]; with
    no discord member the access to [.roles] fails. *)
Definition discord_role (self : t) (role_name : string) : result bool :=
  match discord_member self with
  | Some m => Ok (member_has_role (server self) m role_name)
  | None => Raise (AttributeError "NoneType" "roles")
  end.

Definition discord_role_member (self : t) := discord_role self "Member".
Definition discord_role_elder (self : t) := discord_role self "Elder".
Definition discord_role_coleader (self : t) := discord_role self "Co-Leader".
Definition discord_role_leader (self : t) := discord_role self "Leader".

Definition discord_clan_roles (self : t) : list Role :=
  match discord_member self with
  | None => []
  | Some m =>
      omap (λ c,
              match RACFClan.role c with
              | Some r =>
                  if role_in (Some r) (member_roles m) then Some r else None
              | None => None
              end)
           (clans self)
  end.
End MemberAudit.

(** ** Dynamically typed iteration

    [racfaudit_run] iterates over whatever [family_member_models] returned;
    the objects met by the loop are member models, lists or booleans. *)

Inductive pyobj : Type :=
  | PyMember (m : MemberModel.t)
  | PyList (l : list MemberModel.t)
  | PyBool (b : bool).

(** [obj.tag] *)
Definition getattr_tag (obj : pyobj) : result string :=
  match obj with
  | PyMember m => Ok (MemberModel.tag m)
  | PyList _ => Raise (AttributeError "list" "tag")
  | PyBool _ => Raise (AttributeError "bool" "tag")
  end.

(** [obj.discord_member = user] *)
Definition setattr_discord_member (obj : pyobj) (user : option Member)
    : result MemberModel.t :=
  match obj with
  | PyMember m => Ok (MemberModel.set_discord_member m user)
  | PyList _ => Raise (AttributeError "list" "discord_member")
  | PyBool _ => Raise (AttributeError "bool" "discord_member")
  end.

(** Iterating over the pair [(members, is_cache)]. *)
Definition iter_pair (p : list MemberModel.t * bool) : list pyobj :=
  [PyList p.1; PyBool p.2].

(** ** OrderedDict over string keys, in insertion order *)

Module OrderedDict.
Definition t (V : Type) : Type := list (string * V).

Definition get {V} (d : t V) (k : string) : option V :=
  snd <$> find (λ p : string * V, bool_decide (p.1 = k)) d.

(** [d[k] = v]: a present key keeps its place. *)
Fixpoint set {V} (d : t V) (k : string) (v : V) : t V :=
  match d with
  | [] => [(k, v)]
  | (k', v') :: rest =>
      if bool_decide (k' = k) then (k', v) :: rest
      else (k', v') :: set rest k v
  end.

(** [OrderedDict(pairs)] *)
Definition of_pairs {V} (pairs : list (string * V)) : t V :=
  foldl (λ d p, set d p.1 p.2) [] pairs.

Definition keys {V} (d : t V) : list string := fst <$> d.
End OrderedDict.

(** ** The cog's state and its commands *)

(** A clan dictionary of the report: category name to list of members. *)
Abbreviation clan_dict := (gmap string (list MemberModel.t)).

(** The report as the command reads it at the end: [clans_out.items()]
    with every value looked up. *)
Abbreviation report := (list (string * clan_dict)).

Definition JSON : string := os_path.join PATH ["settings.json"].

(** What one invocation reads from its surroundings: the configuration
    file, the answer of the API client to [get_clans], the clock, the chat
    server of the message and the player table of the [crclan] cog. *)
Record env : Type := mkEnv {
  config_clans : list ConfigClan.t;
  get_clans : list string → result (list ClanModel.t);
  utcnow : string;
  ctx_server : Server;
  players : list (string * string)
}.

Section Cog.
Context `{Crapipy}.

(** [files]: the JSON documents under data/racf_audit/clans, by path, as
    [dataIO.save_json] stored them (the text on disk is not modelled: a
    document is read back as it was written).  [cache_timestamp]: the
    entry of [self.settings].  [heap]: the dictionaries allocated by the
    running command, addressed by position. *)
Record world : Type := mkWorld {
  files : gmap string json;
  cache_timestamp : option string;
  heap : list clan_dict
}.

Definition M (A : Type) : Type := world → result A * world.

#[global] Instance M_ret : MRet M := λ A a w, (Ok a, w).
#[global] Instance M_bind : MBind M := λ A B f c w,
  match c w with
  | (Ok a, w') => f a w'
  | (Raise e, w') => (Raise e, w')
  end.

Definition raise {A} (e : exn) : M A := λ w, (Raise e, w).
Definition lift {A} (r : result A) : M A := λ w, (r, w).

(** [try: body  except crapipy.APIError: handler] *)
Definition try_except_APIError {A} (body handler : M A) : M A := λ w,
  match body w with
  | (Raise APIError, w') => handler w'
  | other => other
  end.

Fixpoint for_each {A} (f : A → M unit) (l : list A) : M unit :=
  match l with
  | [] => mret tt
  | x :: rest => f x ;; for_each f rest
  end.

(** *** dataIO and os.path.getmtime on the cache directory *)

Definition save_json (path : string) (data : json) : M unit := λ w,
  (Ok tt, mkWorld (<[path := data]> (files w)) (cache_timestamp w) (heap w)).

Definition load_json (path : string) : M json := λ w,
  match files w !! path with
  | Some data => (Ok data, w)
  | None => (Raise (FileNotFoundError path), w)
  end.

(** The modification time is read but never used: only the failure on a
    missing file is kept. *)
Definition getmtime (path : string) : M unit := λ w,
  match files w !! path with
  | Some _ => (Ok tt, w)
  | None => (Raise (FileNotFoundError path), w)
  end.

Definition set_cache_timestamp (now : string) : M unit := λ w,
  (Ok tt, mkWorld (files w) (Some now) (heap w)).

(** *** Roster cache *)

Definition cache_file_path (clan_tag : string) : string :=
  os_path.join PATH ["clans"; clan_tag +:+ ".json"].

Definition save_to_cache (clan_models : list ClanModel.t) : M unit :=
  for_each
    (λ clan_model,
       save_json (cache_file_path (ClanModel.tag clan_model))
                 (to_dict clan_model))
    clan_models.

Fixpoint load_from_cache_loop (clan_tags : list string)
    (clan_models : list ClanModel.t) (fp_timestamp : option unit)
    : M (list ClanModel.t) :=
  match clan_tags with
  | [] => mret clan_models
  | clan_tag :: rest =>
      let fp := cache_file_path clan_tag in
      fp_timestamp ←
        match fp_timestamp with
        | None => t ← getmtime fp; mret (Some t)
        | Some t => mret (Some t)
        end;
      data ← load_json fp;
      let clan_model := Clan data in
      load_from_cache_loop rest (clan_models ++ [clan_model]) fp_timestamp
  end.

Definition load_from_cache (clan_tags : list string) : M (list ClanModel.t) :=
  load_from_cache_loop clan_tags [] None.

(** *** Clan registry *)

Definition clans (e : env) (server : Server) : list RACFClan.t :=
  map (λ clan,
         RACFClan.mk (ConfigClan.name clan) (ConfigClan.tag clan)
           (server_role server (ConfigClan.role_name clan))
           (ConfigClan.type clan) None)
      (config_clans e).

Definition clan_roles (e : env) (server : Server) : list (option Role) :=
  map RACFClan.role (clans e server).

Definition clan_name_to_role (e : env) (server : Server)
    (clan_name : string) : option Role :=
  match find (λ clan, bool_decide (RACFClan.name clan = clan_name))
             (clans e server) with
  | Some clan => RACFClan.role clan
  | None => None
  end.

(** *** Fetch or fall back *)

Definition family_clan_models_from_cache (e : env) (server : Server)
    : M (list ClanModel.t) :=
  let clan_tags := map RACFClan.tag (clans e server) in
  load_from_cache clan_tags.

Definition family_clan_models (e : env) (server : Server)
    : M (list ClanModel.t) :=
  let clan_tags := map RACFClan.tag (clans e server) in
  try_except_APIError
    (clan_models ← lift (get_clans e clan_tags);
     save_to_cache clan_models;;
     set_cache_timestamp (utcnow e);;
     mret clan_models)
    (raise APIError).

(** The two nested loops that collect the members. *)
Definition collect_members (clan_models : list ClanModel.t)
    : list MemberModel.t :=
  flat_map
    (λ clan_model,
       map (λ member_model,
              MemberModel.set_clan member_model (ClanModel.tag clan_model))
           (ClanModel.members clan_model))
    clan_models.

Definition family_member_models (e : env) (server : Server)
    : M (list MemberModel.t * bool) :=
  '(clan_models, is_cache) ←
    try_except_APIError
      (clan_models ← family_clan_models e server; mret (clan_models, false))
      (clan_models ← family_clan_models_from_cache e server;
       mret (clan_models, true));
  mret (collect_members clan_models, is_cache).

(** *** The audit command *)

(** The loop "associate Discord user to member". *)
Fixpoint associate (discord_users : DiscordUsers.t)
    (member_models : list pyobj)
    : result (list MemberModel.t) * DiscordUsers.t :=
  match member_models with
  | [] => (Ok [], discord_users)
  | member_model :: rest =>
      match getattr_tag member_model with
      | Raise e => (Raise e, discord_users)
      | Ok tag =>
          let '(user, discord_users) :=
            DiscordUsers.tag_to_member discord_users tag in
          match setattr_discord_member member_model user with
          | Raise e => (Raise e, discord_users)
          | Ok m =>
              let '(r, discord_users) := associate discord_users rest in
              (ms ← r; mret (m :: ms), discord_users)
          end
      end
  end.

Definition clan_defaults : clan_dict :=
  <["elder_promotion_req" := []]>
    (<["coleader_promotion_req" := []]>
       (<["no_discord" := []]> (<["no_clan_role" := []]> ∅))).

(** A dictionary literal is a new object of the heap. *)
Definition alloc (d : clan_dict) : M nat := λ w,
  (Ok (length (heap w)),
   mkWorld (files w) (cache_timestamp w) (heap w ++ [d])).

(** [clans_out[clan_name][field].append(member_model)], where the values
    of [clans_out] are references to dictionaries of the heap. *)
Definition update_clan (clans_out : OrderedDict.t nat)
    (clan_name field : string) (member_model : MemberModel.t) : M unit :=
  λ w,
    match OrderedDict.get clans_out clan_name with
    | None => (Raise (KeyError clan_name), w)
    | Some ref =>
        match heap w !! ref with
        | None => (Raise (OtherError "dangling reference"), w)
        | Some d =>
            match d !! field with
            | None => (Raise (KeyError field), w)
            | Some l =>
                (Ok tt,
                 mkWorld (files w) (cache_timestamp w)
                   (<[ref := <[field := l ++ [member_model]]> d]> (heap w)))
            end
        end
    end.

Definition when (b : bool) (c : M unit) : M unit :=
  if b then c else mret tt.

(** [not a and b], where [b] is only evaluated when [a] is false. *)
Definition not_and (a : bool) (b : result bool) : M bool :=
  if negb a then lift b else mret false.

(** The body of the member-processing loop (the typing indicator and
    the text lines of [m_out] belong to the presentation). *)
Definition audit_member (e : env) (server : Server)
    (clans : list RACFClan.t) (clans_out : OrderedDict.t nat)
    (member_model : MemberModel.t) : M unit :=
  let ma := MemberAudit.mk member_model server clans in
  let clan_name := MemberModel.clan_name member_model in
  if MemberAudit.has_discord ma then
    b ← not_and (MemberAudit.api_is_elder ma)
                (MemberAudit.discord_role_elder ma);
    when b (update_clan clans_out clan_name "elder_promotion_req"
                        member_model);;
    b ← not_and (MemberAudit.api_is_coleader ma)
                (MemberAudit.discord_role_coleader ma);
    when b (update_clan clans_out clan_name "coleader_promotion_req"
                        member_model);;
    match clan_name_to_role e server (MemberModel.clan_name member_model) with
    | Some clan_role =>
        when (negb (existsb (role_eqb clan_role)
                            (MemberAudit.discord_clan_roles ma)))
             (update_clan clans_out clan_name "no_clan_role" member_model)
    | None => mret tt
    end
  else
    update_clan clans_out clan_name "no_discord" member_model.

(** [clans_out.items()], every value read through its reference. *)
Definition read_report (clans_out : OrderedDict.t nat) : M report := λ w,
  (Ok (map (λ p : string * nat, (p.1, default ∅ (heap w !! p.2))) clans_out),
   w).

(** The command from the association loop on, for the iterable
    [member_models]: one [clan_defaults] dictionary is created and
    [clans_out] maps every clan name to it. *)
Definition audit (e : env) (server : Server) (clans : list RACFClan.t)
    (discord_users : DiscordUsers.t) (member_models : list pyobj)
    : M report :=
  members ← lift (associate discord_users member_models).1;
  clan_defaults ← alloc clan_defaults;
  let clans_out :=
    OrderedDict.of_pairs
      (map (λ c, (RACFClan.name c, clan_defaults)) clans) in
  for_each (audit_member e server clans clans_out) members;;
  read_report clans_out.

(** The run command.  The unused [family_tags], the option flags, the
    typing indicators and the display of the configuration come before the
    fetch and are left out; the texts sent after the loop are the
    presentation of the report that [audit] returns. *)
Definition racfaudit_run (e : env) : M report :=
  let server := ctx_server e in
  let clans := clans e server in
  let discord_users := DiscordUsers.init (players e) server in
  member_models ← family_member_models e server;
  audit e server clans discord_users (iter_pair member_models).

(** *** Vocabulary of the statements *)

(** The member as the association loop leaves it. *)
Definition linked (discord_users : DiscordUsers.t) (m : MemberModel.t)
    : MemberModel.t :=
  MemberModel.set_discord_member m
    (DiscordUsers.tag_to_member discord_users (MemberModel.tag m)).1.

(** [m] is in the list that the report keeps for [clan_name] under
    [field]. *)
Definition recorded (r : report) (clan_name field : string)
    (m : MemberModel.t) : Prop :=
  ∃ d l, (clan_name, d) ∈ r ∧ d !! field = Some l ∧ m ∈ l.

(** The list under [field] in the entry of [clan_name]. *)
Definition category_list (r : report) (clan_name field : string)
    (l : list MemberModel.t) : Prop :=
  ∃ d, (clan_name, d) ∈ r ∧ d !! field = Some l.

(** The test that guards each [update_clan] of the loop body. *)
Definition category_test (e : env) (server : Server)
    (clans : list RACFClan.t) (field : string) (m : MemberModel.t) : bool :=
  let ma := MemberAudit.mk m server clans in
  match MemberModel.discord_member m with
  | None => bool_decide (field = "no_discord")
  | Some user =>
      if bool_decide (field = "elder_promotion_req") then
        negb (MemberModel.role_is_elder m)
        && member_has_role server user "Elder"
      else if bool_decide (field = "coleader_promotion_req") then
        negb (MemberModel.role_is_coleader m)
        && member_has_role server user "Co-Leader"
      else if bool_decide (field = "no_clan_role") then
        match clan_name_to_role e server (MemberModel.clan_name m) with
        | Some clan_role =>
            negb (existsb (role_eqb clan_role)
                          (MemberAudit.discord_clan_roles ma))
        | None => false
        end
      else false
  end.

Definition registered (clans : list RACFClan.t) (m : MemberModel.t) : Prop :=
  MemberModel.clan_name m ∈ map RACFClan.name clans.

Definition categories : list string :=
  ["elder_promotion_req"; "coleader_promotion_req"; "no_discord";
   "no_clan_role"].

(** Some test of the loop body holds for [m]. *)
Definition finding (e : env) (server : Server) (clans : list RACFClan.t)
    (m : MemberModel.t) : bool :=
  existsb (λ field, category_test e server clans field m) categories.

(** The effect of one round of the loop on the shared dictionary. *)
Definition record_in (e : env) (server : Server) (clans : list RACFClan.t)
    (m : MemberModel.t) (field : string) (d : clan_dict) : clan_dict :=
  if category_test e server clans field m
  then alter (λ l, l ++ [m]) field d
  else d.

Definition record_member (e : env) (server : Server)
    (clans : list RACFClan.t) (m : MemberModel.t) (d : clan_dict)
    : clan_dict :=
  record_in e server clans m "no_discord"
    (record_in e server clans m "no_clan_role"
       (record_in e server clans m "coleader_promotion_req"
          (record_in e server clans m "elder_promotion_req" d))).

(** The members of [ms] that pass the test of [field], in the order of
    [ms]. *)
Definition matching (e : env) (server : Server) (clans : list RACFClan.t)
    (field : string) (ms : list MemberModel.t) : list MemberModel.t :=
  filter (λ m, category_test e server clans field m = true) ms.

(** The shared dictionary after the loop has run over [ms]. *)
Definition final_dict (e : env) (server : Server) (clans : list RACFClan.t)
    (ms : list MemberModel.t) : clan_dict :=
  foldl (λ d m, record_member e server clans m d) clan_defaults ms.

(** The report of a run that completes: every clan name of [clans_out]
    paired with the one shared dictionary. *)
Definition expected_report (e : env) (server : Server)
    (clans : list RACFClan.t) (discord_users : DiscordUsers.t)
    (ms : list MemberModel.t) (w : world) : report :=
  map (λ p : string * nat,
         (p.1, final_dict e server clans (map (linked discord_users) ms)))
      (OrderedDict.of_pairs
         (map (λ c, (RACFClan.name c, length (heap w))) clans)).

Definition set_heap (w : world) (h : list clan_dict) : world :=
  mkWorld (files w) (cache_timestamp w) h.

(** [c] succeeds and turns the dictionary [d] at [ref] into [d']. *)
Definition transforms (ref : nat) (c : M unit) (d d' : clan_dict) : Prop :=
  ∀ w, heap w !! ref = Some d →
       c w = (Ok tt, set_heap w (<[ref := d']> (heap w))).

Definition has_categories (d : clan_dict) : Prop :=
  ∀ field, field ∈ categories → is_Some (d !! field).

(** The first requested tag without a cache file, and the models read
    from the cache files of the requested tags. *)
Definition first_missing (fs : gmap string json) (clan_tags : list string)
    : option string :=
  find (λ t, bool_decide (fs !! cache_file_path t = None)) clan_tags.

Definition cached_models (fs : gmap string json) (clan_tags : list string)
    : list ClanModel.t :=
  omap (λ t, Clan <$> fs !! cache_file_path t) clan_tags.

Definition cached (fs : gmap string json) (clan_tag : string) : Prop :=
  is_Some (fs !! cache_file_path clan_tag).

(** The cache directory after [save_to_cache]. *)
Definition saved (fs : gmap string json) (clan_models : list ClanModel.t)
    : gmap string json :=
  foldl (λ fs clan_model,
           <[cache_file_path (ClanModel.tag clan_model)
               := to_dict clan_model]> fs)
        fs clan_models.
End Cog.

(** ** Concrete servers, rosters and invocations *)

Module Scenario.

(** The cache keeps the content of a model as it is. *)
Definition snapshot_models : Crapipy :=
  {| json := ClanModel.t; Clan := id; to_dict := id |}.

Definition Elder : Role := mkRole "r-elder" "Elder".
Definition AlphaRole : Role := mkRole "r-alpha" "AlphaRole".
Definition BravoRole : Role := mkRole "r-bravo" "BravoRole".

Definition chat_x : Member := mkMember "u1" "x" [Elder].
Definition chat_y : Member := mkMember "u2" "y" [AlphaRole].

Definition server : Server :=
  mkServer [Elder; AlphaRole; BravoRole] [chat_x; chat_y].

Definition X : MemberModel.t :=
  MemberModel.mk "t1" "X" 4000 role_member "Alpha" None None.
Definition Y : MemberModel.t :=
  MemberModel.mk "t2" "Y" 4100 role_elder "Alpha" None None.
Definition Z : MemberModel.t :=
  MemberModel.mk "t3" "Z" 3900 role_member "Bravo" None None.

Definition alpha : ClanModel.t := ClanModel.mk "AAA" "Alpha" [X].
Definition bravo : ClanModel.t := ClanModel.mk "BBB" "Bravo" [Z].

Definition cfg_alpha : ConfigClan.t :=
  ConfigClan.mk "Alpha" "AAA" "AlphaRole" "family".
Definition cfg_bravo : ConfigClan.t :=
  ConfigClan.mk "Bravo" "BBB" "BravoRole" "family".

Definition table : list (string * string) := [("u1", "t1"); ("u2", "t2")].

(** Clan "Alpha" alone, fetched live. *)
Definition env_alpha : env :=
  mkEnv [cfg_alpha] (λ _, Ok [alpha]) "2017-11-04T12:00:00" server table.

(** Two clans, fetched live. *)
Definition env_family : env :=
  mkEnv [cfg_alpha; cfg_bravo] (λ _, Ok [alpha; bravo])
        "2017-11-04T12:00:00" server table.

(** Clan "BBB" alone, the API is down. *)
Definition env_down : env :=
  mkEnv [cfg_bravo] (λ _, Raise APIError) "2017-11-04T12:00:00" server table.

Definition empty_world : @world snapshot_models := mkWorld ∅ None [].

(** A world whose cache holds clan "BBB". *)
Definition cached_world : @world snapshot_models :=
  mkWorld (<[@cache_file_path "BBB" := bravo]> ∅)
          (Some "2017-11-03T12:00:00") [].

Definition users : DiscordUsers.t := DiscordUsers.init table server.

(** The members as the fetch returns them, and as the association loop
    leaves them. *)
Definition X_fetched : MemberModel.t := MemberModel.set_clan X "AAA".
Definition Z_fetched : MemberModel.t := MemberModel.set_clan Z "BBB".
Definition X_linked : MemberModel.t :=
  MemberModel.set_discord_member X_fetched (Some chat_x).
Definition Z_linked : MemberModel.t :=
  MemberModel.set_discord_member Z_fetched None.

(** The world after a live fetch of clan "Alpha" from [empty_world]. *)
Definition fetched_world : @world snapshot_models :=
  mkWorld (<[@cache_file_path "AAA" := alpha]> ∅)
          (Some "2017-11-04T12:00:00") [].

(** The dictionary of the report for the member list [X]. *)
Definition alpha_dict : clan_dict :=
  final_dict env_alpha server (clans env_alpha server) [X_linked].

End Scenario.

(** ** Further parts of the cog *)

(** *** Strings *)

Definition newline : string := String (ascii_of_nat 10) EmptyString.

(** [sep.join(items)] *)
Fixpoint str_join (sep : string) (items : list string) : string :=
  match items with
  | [] => ""
  | [x] => x
  | x :: rest => x +:+ sep +:+ str_join sep rest
  end.

(** [needle in haystack] on strings. *)
Fixpoint str_contains (needle haystack : string) : bool :=
  String.prefix needle haystack
  || match haystack with
     | EmptyString => false
     | String _ rest => str_contains needle rest
     end.

(** *** Registry: clan_tags *)

(** The loop of [clan_tags]. *)
Definition clan_tags (e : env) (membership_type : option string)
    : list string :=
  foldl (λ tags clan,
           match membership_type with
           | None => tags ++ [ConfigClan.tag clan]
           | Some t =>
               if bool_decide (t = ConfigClan.type clan)
               then tags ++ [ConfigClan.tag clan]
               else tags
           end)
        [] (config_clans e).

(** *** The texts of the run command *)

(** The list [m_out] at the end of a round of the member loop. *)
Definition m_out (e : env) (server : Server) (clans : list RACFClan.t)
    (member_model : MemberModel.t) : list string :=
  let ma := MemberAudit.mk member_model server clans in
  match MemberModel.discord_member member_model with
  | Some user =>
      (if negb (MemberAudit.api_is_elder ma)
          && member_has_role server user "Elder"
       then [":warning: Has Elder role but not promoted in clan."] else [])
      ++ (if negb (MemberAudit.api_is_coleader ma)
             && member_has_role server user "Co-Leader"
          then [":warning: Has Co-Leader role but not promoted in clan."]
          else [])
      ++ match clan_name_to_role e server
                 (MemberModel.clan_name member_model) with
         | Some clan_role =>
             if negb (existsb (role_eqb clan_role)
                              (MemberAudit.discord_clan_roles ma))
             then [":warning: Does not have " +:+ role_name clan_role]
             else []
         | None => []
         end
  | None => [":x: No Discord"]
  end.

(** What a round appends to [out]: nothing when [m_out] is empty. *)
Definition member_entry (e : env) (server : Server) (clans : list RACFClan.t)
    (member_model : MemberModel.t) : option string :=
  let lines := m_out e server clans member_model in
  if bool_decide (length lines = 0) then None
  else Some ("**" +:+ MemberModel.name member_model +:+ "** "
             +:+ MemberModel.clan_name member_model +:+ newline
             +:+ str_join newline lines).

(** The line based output, before it is joined and cut into pages. *)
Definition line_based_output (e : env) (server : Server)
    (clans : list RACFClan.t) (members : list MemberModel.t) : list string :=
  omap (member_entry e server clans) members.

(** [clan_dict[field]] *)
Definition dict_get (d : clan_dict) (field : string)
    : result (list MemberModel.t) :=
  match d !! field with
  | Some l => Ok l
  | None => Raise (KeyError field)
  end.

(** A caption and the comma separated names, when the list is not empty. *)
Definition names_section (caption : string) (l : list MemberModel.t)
    : list string :=
  if bool_decide (length l = 0) then []
  else [caption; str_join ", " (map MemberModel.name l)].

(** The clan based output, before it is joined and cut into pages. *)
Fixpoint clan_based_output (items : report) : result (list string) :=
  match items with
  | [] => Ok []
  | (clan_name, clan_dict) :: rest =>
      let out := ["**" +:+ clan_name +:+ "**"] in
      elders ← dict_get clan_dict "elder_promotion_req";
      let out := out ++ names_section "Elders that need to be promoted:" elders in
      unlinked ← dict_get clan_dict "no_discord";
      let out := out ++ names_section "No Discord:" unlinked in
      unroled ← dict_get clan_dict "no_clan_role";
      let out := out ++ names_section "No clan role on Discord:" unroled in
      more ← clan_based_output rest;
      Ok (out ++ more)
  end.

(** *** Settings commands *)

(** A value of the settings document: a string (the token, the
    timestamp) or the dictionary of a server. *)
Inductive setting : Type :=
  | SettingStr (s : string)
  | SettingDict (d : gmap string string).

(** [self.settings], the document last written to settings.json, and the
    messages sent with [bot.say]. *)
Record settings_state : Type := mkSettings {
  settings : gmap string setting;
  settings_json : gmap string setting;
  said : list string
}.

(** [self.settings[server.id][key] = value], then save and answer.  The
    settings are a plain dictionary: a missing server id is a [KeyError]. *)
Definition update_server_settings (server_id key value : string)
    (st : settings_state) : result unit * settings_state :=
  match settings st !! server_id with
  | None => (Raise (KeyError server_id), st)
  | Some (SettingStr _) =>
      (Raise (OtherError "TypeError: 'str' object does not support item assignment"),
       st)
  | Some (SettingDict d) =>
      let settings' :=
        <[server_id := SettingDict (<[key := value]> d)]> (settings st) in
      (Ok tt, mkSettings settings' settings' (said st ++ ["Updated settings."]))
  end.

Definition racfauditset_leader (server_id role_name : string) :=
  update_server_settings server_id "leader" role_name.
Definition racfauditset_coleader (server_id role_name : string) :=
  update_server_settings server_id "coleader" role_name.
Definition racfauditset_elder (server_id role_name : string) :=
  update_server_settings server_id "elder" role_name.
Definition racfauditset_member (server_id role_name : string) :=
  update_server_settings server_id "member" role_name.

Definition racfauditset_auth (token : string) (st : settings_state)
    : result unit * settings_state :=
  let settings' := <["auth" := SettingStr token]> (settings st) in
  (Ok tt, mkSettings settings' settings' (said st ++ ["Updated settings."])).

(** The [auth] property: [self.settings.get("auth")]. *)
Definition auth (st : settings_state) : option setting :=
  settings st !! "auth".

(** *** The search command *)

(** The arguments as [argparse] hands them over. *)
Record SearchArgs : Type := mkSearchArgs {
  arg_name : string;
  arg_clan : option string;
  arg_min : Z;
  arg_max : Z;
  arg_link : bool
}.

(** What the command sends, by kind; the wording and the paging belong to
    the presentation. *)
Inductive message : Type :=
  | SayHelp
  | SayCannotLoad
  | SayFromCache (cache_timestamp : string)
  | SayTooMany (limit : nat)
  | SayResults (results : list MemberModel.t) (link : bool)
  | SayNoResults.

Section Search.
Context `{Crapipy}.
(** [str.lower], and [unidecode] followed by the selection of the word
    characters. *)
Context (lower : string → string) (unidecode_words : string → string).

Definition name_matches (name : string) (member_model : MemberModel.t)
    : bool :=
  if str_contains (lower name) (lower (MemberModel.name member_model))
  then true
  else
    let s := unidecode_words (MemberModel.name member_model) in
    str_contains (lower name) (lower s).

Definition clan_filter (clan : option string)
    (results : list MemberModel.t) : list MemberModel.t :=
  match clan with
  | Some c =>
      if bool_decide (c = "") then results
      else List.filter
             (λ m, str_contains (lower c) (lower (MemberModel.clan_name m)))
             results
  | None => results
  end.

Definition in_trophy_range (pargs : SearchArgs) (m : MemberModel.t) : bool :=
  bool_decide (arg_min pargs ≤ MemberModel.trophies m)%Z
  && bool_decide (MemberModel.trophies m ≤ arg_max pargs)%Z.

(** The selection of the results from the member models. *)
Definition search_results (pargs : SearchArgs)
    (member_models : list MemberModel.t) : list MemberModel.t :=
  let results :=
    if negb (bool_decide (arg_name pargs = "_"))
    then List.filter (name_matches (arg_name pargs)) member_models
    else member_models in
  let results := clan_filter (arg_clan pargs) results in
  List.filter (in_trophy_range pargs) results.

Definition get_cache_timestamp : M (option string) := λ w,
  (Ok (cache_timestamp w), w).

(** The command; [pargs] is [None] when the parser exits, [first_call] is
    the answer to the call of [get_clans] that precedes the fetch. *)
Definition racfaudit_search (e : env) (pargs : option SearchArgs)
    (first_call : result (list ClanModel.t)) : M (list message) :=
  match pargs with
  | None => mret [SayHelp]
  | Some pargs =>
      clans ← lift first_call;
      let server := ctx_server e in
      p ← family_member_models e server;
      let member_models := p.1 in
      let is_cache := p.2 in
      settings_cache_timestamp ← get_cache_timestamp;
      match is_cache, settings_cache_timestamp with
      | true, None => mret [SayCannotLoad]
      | _, _ =>
          let said :=
            match is_cache, settings_cache_timestamp with
            | true, Some t => [SayFromCache t]
            | _, _ => []
            end in
          let results := search_results pargs member_models in
          let limit := 10 in
          let said :=
            if bool_decide (limit < length results)
            then said ++ [SayTooMany limit] else said in
          let results :=
            if bool_decide (limit < length results)
            then take limit results else results in
          if bool_decide (length results = 0)
          then mret (said ++ [SayNoResults])
          else mret (said ++ [SayResults results (arg_link pargs)])
      end
  end.
End Search.

(** ** More concrete invocations *)

Module Scenario2.
Import Scenario.

(** The client fails with something else than an API error. *)
Definition env_broken : env :=
  mkEnv [cfg_alpha] (λ _, Raise (OtherError "timeout"))
        "2017-11-04T12:00:00" server table.

(** Clan "Alpha" alone, the API is down. *)
Definition env_alpha_down : env :=
  mkEnv [cfg_alpha] (λ _, Raise APIError) "2017-11-05T12:00:00" server table.

(** A clan of eleven members. *)
Definition crowd : ClanModel.t :=
  ClanModel.mk "AAA" "Alpha"
    (map (λ t, MemberModel.mk t t 4000 role_member "Alpha" None None)
         ["m01"; "m02"; "m03"; "m04"; "m05"; "m06"; "m07"; "m08"; "m09";
          "m10"; "m11"]).

Definition env_crowd : env :=
  mkEnv [cfg_alpha] (λ _, Ok [crowd]) "2017-11-04T12:00:00" server table.

Definition crowd_world : @world snapshot_models :=
  mkWorld (<[@cache_file_path "AAA" := crowd]> ∅)
          (Some "2017-11-04T12:00:00") [].

(** A search without name and clan, over the usual trophy range. *)
Definition any_member : SearchArgs := mkSearchArgs "_" None 0 10000 false.

(** Settings with an entry for one server. *)
Definition one_server : settings_state :=
  mkSettings (<["264119826069454849" := SettingDict ∅]> ∅) ∅ [].

(** A server without the role "Co-Leader". *)
Definition chat_role_names : list string :=
  map role_name (server_roles server).

(** Clan "Bravo" alone, fetched live. *)
Definition env_bravo : env :=
  mkEnv [cfg_bravo] (λ _, Ok [bravo]) "2017-11-04T12:00:00" server table.

(** A second member of "Alpha" without chat identity. *)
Definition W_fetched : MemberModel.t :=
  MemberModel.mk "t4" "W" 3800 role_member "Alpha" (Some "AAA") None.
Definition W_linked : MemberModel.t :=
  MemberModel.set_discord_member W_fetched None.

(** The dictionary of the report for the member list [X; Z; W]. *)
Definition trio_dict : clan_dict :=
  final_dict env_family server (clans env_family server)
             [X_linked; Z_linked; W_linked].

(** A player table whose first entry for "t1" names somebody who is not on
    the server. *)
Definition ghost_table : list (string * string) :=
  [("ghost", "t1"); ("u2", "t1")].

End Scenario2.

(** * Properties *)

(** ** Identity linker *)

Section Linker.
Import DiscordUsers.

Lemma scan_first (l : list DiscordUser.t) (tag : string) :
  match scan l tag with
  | Some u =>
      ∃ l1 a l2, l = l1 ++ a :: l2 ∧ DiscordUser.tag a = tag ∧
                 DiscordUser.user a = u ∧
                 Forall (λ b, DiscordUser.tag b ≠ tag) l1
  | None => Forall (λ b, DiscordUser.tag b ≠ tag) l
  end.
Proof.
  induction l as [|u l IH]; simpl; [constructor|].
  case_bool_decide as Hu.
  - exists [], u, l. repeat split; auto.
  - destruct (scan l tag) as [m|].
    + destruct IH as (l1 & a & l2 & -> & Ha & Hm & Hl1).
      exists (u :: l1), a, l2. repeat split; auto.
    + constructor; auto.
Qed.

Lemma build_omap (srv : Server) (players : list (string * string)) :
  build srv players
  = omap (λ p, (λ u, DiscordUser.mk u p.2) <$> get_member srv p.1) players.
Proof.
  induction players as [|[id tg] players IH]; simpl; [done|].
  destruct (get_member srv id); simpl; by rewrite IH.
Qed.

Lemma user_list_init players srv :
  (user_list (init players srv)).1 = build srv players.
Proof. reflexivity. Qed.

Lemma user_list_again (self : t) :
  user_list (user_list self).2 = user_list self.
Proof.
  unfold user_list. destruct (_user_list self) as [l|] eqn:E; simpl.
  - by rewrite E.
  - reflexivity.
Qed.

Lemma user_list_consistent (self : t) :
  consistent self →
  (user_list self).1 = build (server self) (crclan_players self)
  ∧ consistent (user_list self).2.
Proof.
  unfold consistent, user_list. intros [E|E]; rewrite E; simpl.
  - split; [done|]. by right.
  - split; [done|]. by right.
Qed.

Lemma tag_to_member_again (self : t) (tag tag' : string) :
  (tag_to_member (tag_to_member self tag).2 tag').1
  = (tag_to_member self tag').1.
Proof.
  unfold tag_to_member.
  destruct (user_list self) as [l self'] eqn:E. simpl.
  assert (E' : user_list self' = (l, self')).
  { pose proof (user_list_again self) as Hu. by rewrite E in Hu. }
  by rewrite E'.
Qed.

Lemma tag_to_member_snd (self : t) (tag : string) :
  (tag_to_member self tag).2 = (user_list self).2.
Proof. unfold tag_to_member. by destruct (user_list self). Qed.

(** The scan of the user list: [tag_to_member] returns the user of the
    first element of the object's user list whose tag is the queried tag,
    and none when no element has that tag. *)
Theorem tag_to_member_first_match (self : t) (tag : string) :
  let table := (user_list self).1 in
  match (tag_to_member self tag).1 with
  | Some u =>
      ∃ before a after,
        table = before ++ a :: after ∧ DiscordUser.tag a = tag ∧
        DiscordUser.user a = u ∧
        Forall (λ b, DiscordUser.tag b ≠ tag) before
  | None => Forall (λ b, DiscordUser.tag b ≠ tag) table
  end.
Proof.
  unfold tag_to_member. destruct (user_list self) as [l self']. simpl.
  apply scan_first.
Qed.

End Linker.

(** ** Cache paths *)

Lemma string_length_app (s1 s2 : string) :
  String.length (s1 +:+ s2) = String.length s1 + String.length s2.
Proof. induction s1 as [|c s1 IH]; simpl; [done|]. by rewrite IH. Qed.

Lemma string_app_inv_tail (s t1 t2 : string) :
  t1 +:+ s = t2 +:+ s → t1 = t2.
Proof.
  revert t2. induction t1 as [|c t1 IH]; intros [|c' t2] Heq; simpl in *.
  - done.
  - apply (f_equal String.length) in Heq.
    rewrite !string_length_app in Heq. simpl in Heq.
    rewrite ?string_length_app in Heq. lia.
  - apply (f_equal String.length) in Heq.
    rewrite !string_length_app in Heq. simpl in Heq.
    rewrite ?string_length_app in Heq. lia.
  - injection Heq as -> Heq. f_equal. by apply IH.
Qed.

Lemma cache_file_path_eq (clan_tag : string) :
  cache_file_path clan_tag
  = if os_path.startswith_sep (clan_tag +:+ ".json")
    then clan_tag +:+ ".json"
    else "data/racf_audit/clans/" +:+ clan_tag +:+ ".json".
Proof.
  unfold cache_file_path, os_path.join. simpl foldl.
  change (os_path.join_step PATH "clans") with "data/racf_audit/clans".
  unfold os_path.join_step.
  destruct (os_path.startswith_sep (clan_tag +:+ ".json")); reflexivity.
Qed.

(** Distinct clan tags have distinct cache files. *)
Lemma cache_file_path_inj (t1 t2 : string) :
  cache_file_path t1 = cache_file_path t2 → t1 = t2.
Proof.
  rewrite !cache_file_path_eq.
  destruct (os_path.startswith_sep (t1 +:+ ".json")) eqn:E1,
           (os_path.startswith_sep (t2 +:+ ".json")) eqn:E2; intros Heq.
  - by apply string_app_inv_tail in Heq.
  - rewrite Heq in E1. simpl in E1. discriminate.
  - rewrite <- Heq in E2. simpl in E2. discriminate.
  - apply (inj (String.append _)) in Heq. by apply string_app_inv_tail in Heq.
Qed.

(** ** Roster cache and fetch-or-fallback *)

Section Fetch.
Context `{Crapipy}.

Lemma bind_unfold {A B} (c : M A) (f : A → M B) (w : world) :
  (c ≫= f) w
  = match c w with
    | (Ok a, w') => f a w'
    | (Raise x, w') => (Raise x, w')
    end.
Proof. reflexivity. Qed.

Lemma save_to_cache_eq (clan_models : list ClanModel.t) (w : world) :
  save_to_cache clan_models w
  = (Ok tt,
     mkWorld (saved (files w) clan_models) (cache_timestamp w) (heap w)).
Proof.
  unfold save_to_cache, saved. revert w.
  induction clan_models as [|m ms IH]; intros w; simpl.
  - by destruct w.
  - rewrite bind_unfold. unfold save_json at 1. by rewrite IH.
Qed.

Lemma saved_lookup_other (fs : gmap string json) ms (clan_tag : string) :
  clan_tag ∉ map ClanModel.tag ms →
  saved fs ms !! cache_file_path clan_tag = fs !! cache_file_path clan_tag.
Proof.
  unfold saved. revert fs. induction ms as [|m ms IH]; intros fs Hn; simpl.
  - done.
  - simpl in Hn. rewrite not_elem_of_cons in Hn. destruct Hn as [Hne Hn].
    rewrite IH by done. apply lookup_insert_ne.
    intros Heq. by apply cache_file_path_inj in Heq.
Qed.

(** The file of a tag holds the content of the last model saved with that
    tag. *)
Lemma saved_lookup_last (fs : gmap string json) ms1 m ms2 :
  ClanModel.tag m ∉ map ClanModel.tag ms2 →
  saved fs (ms1 ++ m :: ms2) !! cache_file_path (ClanModel.tag m)
  = Some (to_dict m).
Proof.
  intros Hn. unfold saved. rewrite foldl_app. simpl.
  fold (saved (<[cache_file_path (ClanModel.tag m) := to_dict m]>
                 (foldl (λ fs0 cm, <[cache_file_path (ClanModel.tag cm)
                                       := to_dict cm]> fs0) fs ms1)) ms2).
  rewrite saved_lookup_other by done. apply lookup_insert_eq.
Qed.

Lemma load_from_cache_loop_eq (clan_tags : list string) acc ts (w : world) :
  load_from_cache_loop clan_tags acc ts w
  = match first_missing (files w) clan_tags with
    | Some t => (Raise (FileNotFoundError (cache_file_path t)), w)
    | None => (Ok (acc ++ cached_models (files w) clan_tags), w)
    end.
Proof.
  unfold first_missing, cached_models. revert acc ts.
  induction clan_tags as [|t tags IH]; intros acc ts; simpl.
  - by rewrite app_nil_r.
  - rewrite bind_unfold.
    destruct (files w !! cache_file_path t) as [data|] eqn:E; simpl.
    + assert (Hts : ∃ ts', (match ts with
                           | Some t0 => mret (Some t0)
                           | None => getmtime (cache_file_path t)
                                       ≫= λ t0, mret (Some t0)
                           end : M (option unit)) w = (Ok ts', w)).
      { destruct ts as [[]|]; [by eexists|].
        rewrite bind_unfold. unfold getmtime. rewrite E. by eexists. }
      destruct Hts as [ts' ->].
      rewrite bind_unfold. unfold load_json at 1. rewrite E.
      rewrite IH.
      destruct (find _ tags); [done|]. by rewrite <- app_assoc.
    + destruct ts as [[]|];
        cbv [mret M_ret mbind M_bind load_json getmtime]; by rewrite E.
Qed.

Lemma load_from_cache_eq (clan_tags : list string) (w : world) :
  load_from_cache clan_tags w
  = match first_missing (files w) clan_tags with
    | Some t => (Raise (FileNotFoundError (cache_file_path t)), w)
    | None => (Ok (cached_models (files w) clan_tags), w)
    end.
Proof. unfold load_from_cache. by rewrite load_from_cache_loop_eq. Qed.


Lemma first_missing_None (fs : gmap string json) (clan_tags : list string) :
  first_missing fs clan_tags = None ↔ Forall (cached fs) clan_tags.
Proof.
  unfold first_missing, cached.
  induction clan_tags as [|t tags IH]; simpl.
  - split; [constructor|done].
  - case_bool_decide as E.
    + split; [done|]. intros Hall. apply Forall_cons in Hall as [[x Hx] _].
      congruence.
    + rewrite IH. rewrite Forall_cons. split; [|tauto].
      intros Hall. split; [|done]. by apply not_eq_None_Some.
Qed.

Lemma first_missing_Some (fs : gmap string json) before t after :
  Forall (cached fs) before → ¬ cached fs t →
  first_missing fs (before ++ t :: after) = Some t.
Proof.
  unfold first_missing, cached. intros Hall Hmiss.
  induction Hall as [|t0 l [x Hx] Hall IH]; simpl.
  - rewrite bool_decide_eq_true_2; [done|].
    by apply eq_None_not_Some.
  - rewrite Hx. simpl. apply IH.
Qed.

(** With every requested tag cached, the load yields one model per tag,
    in the order of the request, each built from the file of its tag. *)
Lemma cached_models_Forall2 (fs : gmap string json) (clan_tags : list string) :
  Forall (cached fs) clan_tags →
  Forall2 (λ t m, ∃ data, fs !! cache_file_path t = Some data
                          ∧ m = Clan data)
          clan_tags (cached_models fs clan_tags).
Proof.
  unfold cached_models, cached. induction 1 as [|t l [x Hx] Hall IH]; simpl.
  - constructor.
  - rewrite Hx. simpl. constructor; [by exists x|done].
Qed.

Lemma family_clan_models_eq (e : env) (server : Server) (w : world) :
  family_clan_models e server w
  = match get_clans e (map RACFClan.tag (clans e server)) with
    | Ok ms =>
        (Ok ms, mkWorld (saved (files w) ms) (Some (utcnow e)) (heap w))
    | Raise x => (Raise x, w)
    end.
Proof.
  unfold family_clan_models, try_except_APIError.
  rewrite bind_unfold. unfold lift at 1.
  destruct (get_clans e _) as [ms|x].
  - rewrite bind_unfold, save_to_cache_eq. reflexivity.
  - by destruct x.
Qed.

Lemma family_member_models_eq (e : env) (server : Server) (w : world) :
  let clan_tags := map RACFClan.tag (clans e server) in
  family_member_models e server w
  = match get_clans e clan_tags with
    | Ok ms =>
        (Ok (collect_members ms, false),
         mkWorld (saved (files w) ms) (Some (utcnow e)) (heap w))
    | Raise APIError =>
        match first_missing (files w) clan_tags with
        | Some t => (Raise (FileNotFoundError (cache_file_path t)), w)
        | None =>
            (Ok (collect_members (cached_models (files w) clan_tags), true),
             w)
        end
    | Raise x => (Raise x, w)
    end.
Proof.
  intros clan_tags. unfold family_member_models.
  rewrite bind_unfold. unfold try_except_APIError.
  rewrite bind_unfold, family_clan_models_eq. fold clan_tags.
  destruct (get_clans e clan_tags) as [ms|x]; [reflexivity|].
  destruct x; try reflexivity.
  rewrite bind_unfold. unfold family_clan_models_from_cache.
  fold clan_tags. rewrite load_from_cache_eq.
  by destruct (first_missing (files w) clan_tags).
Qed.

(** The fetch never touches the dictionaries of a running audit. *)
Lemma family_member_models_heap (e : env) (server : Server) (w : world) :
  heap (family_member_models e server w).2 = heap w.
Proof.
  rewrite family_member_models_eq.
  destruct (get_clans e _) as [ms|[]]; try reflexivity.
  by destruct (first_missing _ _).
Qed.

(** C2. A batch returned by the fetch-or-fallback operation is either
    the members of the models the API returned, reported as live
    ([is_cache] false), or the members of the models read from the cache
    files of the requested tags after an API error, reported as cached
    ([is_cache] true); no returned batch combines the two. *)
Theorem family_member_models_live_or_cache (e : env) (server : Server)
    (w w' : world) (members : list MemberModel.t) (is_cache : bool) :
  family_member_models e server w = (Ok (members, is_cache), w') →
  let clan_tags := map RACFClan.tag (clans e server) in
  (is_cache = false
   ∧ ∃ live, get_clans e clan_tags = Ok live
             ∧ members = collect_members live)
  ∨ (is_cache = true
     ∧ get_clans e clan_tags = Raise APIError
     ∧ Forall (cached (files w)) clan_tags
     ∧ members = collect_members (cached_models (files w) clan_tags)).
Proof.
  intros Hrun clan_tags. rewrite family_member_models_eq in Hrun.
  fold clan_tags in Hrun.
  destruct (get_clans e clan_tags) as [ms|x].
  - left. injection Hrun as <- <- <-. eauto.
  - right. destruct x; try discriminate.
    destruct (first_missing (files w) clan_tags) eqn:E; [discriminate|].
    injection Hrun as <- <- <-.
    split; [done|]. split; [done|].
    split; [by apply first_missing_None|done].
Qed.

(** C3, as the code has it. When the API fetch fails, the fallback reads
    the cache file of every requested tag: if all of them exist the
    operation returns the members of one model per requested tag, in
    request order, with source cache; the first requested tag without a
    cache file makes the operation raise the file-not-found error of that
    file, and nothing is returned. *)
Theorem family_member_models_fallback (e : env) (server : Server)
    (w : world) :
  let clan_tags := map RACFClan.tag (clans e server) in
  get_clans e clan_tags = Raise APIError →
  (Forall (cached (files w)) clan_tags →
   family_member_models e server w
   = (Ok (collect_members (cached_models (files w) clan_tags), true), w)
   ∧ Forall2 (λ t m, ∃ data, files w !! cache_file_path t = Some data
                             ∧ m = Clan data)
             clan_tags (cached_models (files w) clan_tags))
  ∧ (∀ before t after,
       clan_tags = before ++ t :: after →
       Forall (cached (files w)) before → ¬ cached (files w) t →
       family_member_models e server w
       = (Raise (FileNotFoundError (cache_file_path t)), w)).
Proof.
  intros clan_tags Hapi. split.
  - intros Hall. split; [|by apply cached_models_Forall2].
    rewrite family_member_models_eq. fold clan_tags. rewrite Hapi.
    apply first_missing_None in Hall. by rewrite Hall.
  - intros before t after Hsplit Hall Hmiss.
    rewrite family_member_models_eq. fold clan_tags. rewrite Hapi, Hsplit.
    by rewrite first_missing_Some.
Qed.

(** After a successful fetch, the cache file of the tag that a fetched
    model carries holds the content of that model (of the last one, should
    the answer carry a tag twice), and a cache load of that tag yields the
    model built from that content: the fetched model itself, given that
    the model class rebuilds a model from its own [to_dict]. *)
Theorem cache_round_trip (e : env) (server : Server) (w : world)
    (ms1 ms2 : list ClanModel.t) (m : ClanModel.t) :
  get_clans e (map RACFClan.tag (clans e server)) = Ok (ms1 ++ m :: ms2) →
  ClanModel.tag m ∉ map ClanModel.tag ms2 →
  Clan (to_dict m) = m →
  ∃ w',
    family_clan_models e server w = (Ok (ms1 ++ m :: ms2), w')
    ∧ files w' !! cache_file_path (ClanModel.tag m) = Some (to_dict m)
    ∧ load_from_cache [ClanModel.tag m] w' = (Ok [m], w').
Proof.
  intros Hapi Hlast Hcodec. rewrite family_clan_models_eq, Hapi.
  eexists. split; [reflexivity|].
  assert (Hfile : saved (files w) (ms1 ++ m :: ms2)
                    !! cache_file_path (ClanModel.tag m) = Some (to_dict m))
    by by apply saved_lookup_last.
  split; [exact Hfile|].
  rewrite load_from_cache_eq. unfold first_missing, cached_models. simpl.
  rewrite Hfile. simpl. by rewrite Hcodec.
Qed.

(** The whole batch reads back: with distinct tags in the answer, a
    fallback load of those tags returns the fetched models. *)
Lemma fallback_reads_back_batch (fs : gmap string json) (hp : list clan_dict)
    (ts : option string) (ms : list ClanModel.t) :
  NoDup (map ClanModel.tag ms) →
  Forall (λ m, Clan (to_dict m) = m) ms →
  load_from_cache (map ClanModel.tag ms) (mkWorld (saved fs ms) ts hp)
  = (Ok ms, mkWorld (saved fs ms) ts hp).
Proof.
  intros Hnd Hcodec. rewrite load_from_cache_eq. cbn [files].
  assert (Hall : ∀ m, m ∈ ms →
            saved fs ms !! cache_file_path (ClanModel.tag m)
            = Some (to_dict m)).
  { intros m Hm. apply list_elem_of_split in Hm as (l1 & l2 & ->).
    apply saved_lookup_last.
    rewrite map_app in Hnd. apply NoDup_app in Hnd as (_ & _ & Hnd).
    simpl in Hnd. by apply NoDup_cons in Hnd as [Hnd _]. }
  generalize (saved fs ms) Hall. clear Hall Hnd. intros fs' Hall.
  assert (Hm : first_missing fs' (map ClanModel.tag ms) = None
               ∧ cached_models fs' (map ClanModel.tag ms) = ms).
  { induction ms as [|m ms IH]; [done|].
    apply Forall_cons in Hcodec as [Hm Hcodec].
    destruct IH as [IH1 IH2];
      [done | by intros m' Hm'; apply Hall; right |].
    unfold first_missing, cached_models in *. simpl.
    rewrite (Hall m) by by left. simpl. rewrite Hm.
    split; [exact IH1 | by f_equal]. }
  destruct Hm as [-> ->]. reflexivity.
Qed.

End Fetch.

(** ** OrderedDict *)

Section OrderedDictFacts.
Context {V : Type}.
Implicit Types (d : OrderedDict.t V) (k : string) (v : V).

Lemma odict_get_elem d k v : OrderedDict.get d k = Some v → (k, v) ∈ d.
Proof.
  unfold OrderedDict.get. induction d as [|[k' v'] d IH]; simpl; [done|].
  case_bool_decide as E; simpl.
  - intros [= <-]. simpl in E. subst. by left.
  - intros Hg. right. by apply IH.
Qed.

Lemma odict_get_None d k v : OrderedDict.get d k = None → (k, v) ∉ d.
Proof.
  unfold OrderedDict.get. induction d as [|[k' v'] d IH]; simpl.
  - intros _ Hin. by apply elem_of_nil in Hin.
  - case_bool_decide as E; simpl; [done|].
    intros Hg Hin. apply elem_of_cons in Hin as [[= -> ->]|Hin]; [done|].
    by apply IH.
Qed.

Lemma odict_set_elem d k v p :
  p ∈ OrderedDict.set d k v → p = (k, v) ∨ p ∈ d.
Proof.
  induction d as [|[k' v'] d IH]; simpl.
  - intros Hin. apply list_elem_of_singleton in Hin. by left.
  - case_bool_decide as E.
    + intros Hin. apply elem_of_cons in Hin as [->|Hin].
      * left. by subst.
      * right. by right.
    + intros Hin. apply elem_of_cons in Hin as [->|Hin].
      * right. by left.
      * destruct (IH Hin); [by left|]. right. by right.
Qed.

Lemma odict_set_new d k v : (k, v) ∈ OrderedDict.set d k v.
Proof.
  induction d as [|[k' v'] d IH]; simpl.
  - by left.
  - case_bool_decide as E.
    + subst. by left.
    + by right.
Qed.

Lemma odict_set_keep d k v k' :
  (k', v) ∈ d → (k', v) ∈ OrderedDict.set d k v.
Proof.
  induction d as [|[k0 v0] d IH]; simpl.
  - intros Hin. by apply elem_of_nil in Hin.
  - intros Hin. case_bool_decide as E.
    + apply elem_of_cons in Hin as [[= -> ->]|Hin].
      * subst. by left.
      * by right.
    + apply elem_of_cons in Hin as [[= -> ->]|Hin].
      * by left.
      * right. by apply IH.
Qed.

(** A dictionary built from pairs that all carry the value [v]. *)
Lemma odict_const_fold (names : list string) v d :
  let d' := foldl (λ d p, OrderedDict.set d p.1 p.2) d
                  (map (λ n, (n, v)) names) in
  (∀ p, p ∈ d' → p ∈ d ∨ (p.1 ∈ names ∧ p.2 = v))
  ∧ (∀ n, n ∈ names ∨ (n, v) ∈ d → (n, v) ∈ d').
Proof.
  revert d. induction names as [|n names IH]; intros d; simpl.
  - split; [by left|]. intros n [Hn|Hn]; [by apply elem_of_nil in Hn|done].
  - destruct (IH (OrderedDict.set d n v)) as [IH1 IH2]. split.
    + intros p Hp. destruct (IH1 p Hp) as [Hin|[Hin Hv]].
      * apply odict_set_elem in Hin as [->|Hin]; [|by left].
        right. split; [by left|done].
      * right. split; [by right|done].
    + intros n' [Hn|Hn].
      * apply elem_of_cons in Hn as [->|Hn].
        -- apply IH2. right. apply odict_set_new.
        -- apply IH2. by left.
      * apply IH2. right. by apply odict_set_keep.
Qed.

Lemma odict_const_elem (names : list string) v p :
  p ∈ OrderedDict.of_pairs (map (λ n, (n, v)) names) ↔ p.1 ∈ names ∧ p.2 = v.
Proof.
  destruct (odict_const_fold names v []) as [H1 H2]. split.
  - intros Hp. destruct (H1 p Hp) as [Hin|Hin]; [|done].
    by apply elem_of_nil in Hin.
  - destruct p as [n v']. simpl. intros [Hn ->]. apply H2. by left.
Qed.

Lemma odict_const_get (names : list string) v k :
  OrderedDict.get (OrderedDict.of_pairs (map (λ n, (n, v)) names)) k
  = if bool_decide (k ∈ names) then Some v else None.
Proof.
  destruct (OrderedDict.get _ k) as [v'|] eqn:E.
  - apply odict_get_elem, odict_const_elem in E as [Hk Hv].
    simpl in Hk, Hv. subst v'. by rewrite bool_decide_eq_true_2.
  - case_bool_decide as Hk; [|done]. exfalso.
    apply (odict_get_None _ _ v) in E. apply E.
    by apply odict_const_elem.
Qed.

End OrderedDictFacts.

(** ** The member-processing loop *)

(** Evaluates the comparisons of two string literals in the goal. *)
Ltac eval_string_tests :=
  repeat match goal with
         | |- context [bool_decide (?a = ?b)] =>
             let v := eval vm_compute in (bool_decide (a = b)) in
             match v with
             | true => change (bool_decide (a = b)) with true
             | false => change (bool_decide (a = b)) with false
             end
         end.

Section Loop.
Context `{Crapipy}.
Context (e : env) (server : Server) (clans : list RACFClan.t) (ref : nat).

Let clans_out : OrderedDict.t nat :=
  OrderedDict.of_pairs (map (λ c, (RACFClan.name c, ref)) clans).

Lemma clans_out_elem (p : string * nat) :
  p ∈ clans_out ↔ p.1 ∈ map RACFClan.name clans ∧ p.2 = ref.
Proof.
  unfold clans_out.
  replace (map (λ c, (RACFClan.name c, ref)) clans)
    with (map (λ n, (n, ref)) (map RACFClan.name clans))
    by by rewrite map_map.
  apply odict_const_elem.
Qed.

Lemma clans_out_get (k : string) :
  OrderedDict.get clans_out k
  = if bool_decide (k ∈ map RACFClan.name clans) then Some ref else None.
Proof.
  unfold clans_out.
  replace (map (λ c, (RACFClan.name c, ref)) clans)
    with (map (λ n, (n, ref)) (map RACFClan.name clans))
    by by rewrite map_map.
  apply odict_const_get.
Qed.

Lemma set_heap_id (w : world) : set_heap w (heap w) = w.
Proof. by destruct w. Qed.

Lemma transforms_ret (d : clan_dict) : transforms ref (mret tt) d d.
Proof.
  intros w Hw. rewrite list_insert_id by done. by rewrite set_heap_id.
Qed.

Lemma transforms_seq (c1 c2 : M unit) (d d1 d2 : clan_dict) :
  transforms ref c1 d d1 → transforms ref c2 d1 d2 →
  transforms ref (c1 ;; c2) d d2.
Proof.
  intros H1 H2 w Hw. rewrite bind_unfold, (H1 w Hw).
  rewrite H2.
  - unfold set_heap. simpl. by rewrite list_insert_insert_eq.
  - simpl. apply list_lookup_insert_eq. by apply lookup_lt_Some in Hw.
Qed.

Lemma transforms_not_and (a v : bool) (k : bool → M unit) (d d' : clan_dict) :
  transforms ref (k (negb a && v)) d d' →
  transforms ref (not_and a (Ok v) ≫= k) d d'.
Proof. intros Hk w Hw. rewrite bind_unfold. destruct a; by apply Hk. Qed.

Lemma transforms_update (clan_name field : string) (m : MemberModel.t)
    (b : bool) (d : clan_dict) :
  clan_name ∈ map RACFClan.name clans → is_Some (d !! field) →
  transforms ref (when b (update_clan clans_out clan_name field m)) d
             (if b then alter (λ l, l ++ [m]) field d else d).
Proof.
  intros Hreg [l Hl]. destruct b; [|apply transforms_ret].
  intros w Hw. simpl. unfold update_clan.
  rewrite clans_out_get, bool_decide_eq_true_2 by done.
  rewrite Hw, Hl. unfold set_heap. do 3 f_equal.
  apply map_eq. intros i. destruct (decide (i = field)) as [->|Hne].
  - by rewrite lookup_insert_eq, lookup_alter_eq, Hl.
  - by rewrite lookup_insert_ne, lookup_alter_ne.
Qed.

Lemma update_clan_unregistered (clan_name field : string)
    (m : MemberModel.t) (w : world) :
  clan_name ∉ map RACFClan.name clans →
  update_clan clans_out clan_name field m w = (Raise (KeyError clan_name), w).
Proof.
  intros Hreg. unfold update_clan.
  by rewrite clans_out_get, bool_decide_eq_false_2.
Qed.

Lemma has_categories_record_in (m : MemberModel.t) (field : string)
    (d : clan_dict) :
  has_categories d → has_categories (record_in e server clans m field d).
Proof.
  unfold has_categories, record_in. intros Hd f Hf.
  destruct (category_test _ _ _ _ _); [|by apply Hd].
  apply lookup_alter_is_Some. by apply Hd.
Qed.

Lemma has_categories_record_member (m : MemberModel.t) (d : clan_dict) :
  has_categories d → has_categories (record_member e server clans m d).
Proof.
  intros Hd. unfold record_member. by do 4 apply has_categories_record_in.
Qed.

Lemma has_categories_defaults : has_categories clan_defaults.
Proof.
  intros f Hf. unfold categories in Hf.
  repeat (apply elem_of_cons in Hf as [->|Hf]; [by eexists|]).
  by apply elem_of_nil in Hf.
Qed.


(** The tests of the loop body, by category. *)
Lemma category_test_unlinked (field : string) (m : MemberModel.t) :
  MemberModel.discord_member m = None →
  category_test e server clans field m = bool_decide (field = "no_discord").
Proof. intros E. unfold category_test. by rewrite E. Qed.

Lemma category_test_no_discord (m : MemberModel.t) :
  category_test e server clans "no_discord" m
  = bool_decide (MemberModel.discord_member m = None).
Proof.
  unfold category_test. by destruct (MemberModel.discord_member m).
Qed.

Lemma category_test_elder (m : MemberModel.t) (user : Member) :
  MemberModel.discord_member m = Some user →
  category_test e server clans "elder_promotion_req" m
  = negb (MemberModel.role_is_elder m) && member_has_role server user "Elder".
Proof. intros E. unfold category_test. by rewrite E. Qed.

Lemma category_test_coleader (m : MemberModel.t) (user : Member) :
  MemberModel.discord_member m = Some user →
  category_test e server clans "coleader_promotion_req" m
  = negb (MemberModel.role_is_coleader m)
    && member_has_role server user "Co-Leader".
Proof. intros E. unfold category_test. by rewrite E. Qed.

Lemma category_test_clan_role (m : MemberModel.t) (user : Member) :
  MemberModel.discord_member m = Some user →
  category_test e server clans "no_clan_role" m
  = match clan_name_to_role e server (MemberModel.clan_name m) with
    | Some clan_role =>
        negb (existsb (role_eqb clan_role)
                (MemberAudit.discord_clan_roles
                   (MemberAudit.mk m server clans)))
    | None => false
    end.
Proof. intros E. unfold category_test. by rewrite E. Qed.

Lemma category_test_other (field : string) (m : MemberModel.t) :
  field ∉ categories → category_test e server clans field m = false.
Proof.
  unfold categories. intros Hf. unfold category_test.
  rewrite !not_elem_of_cons in Hf. destruct Hf as (H1 & H2 & H3 & H4 & _).
  destruct (MemberModel.discord_member m).
  - by rewrite !bool_decide_eq_false_2.
  - by rewrite bool_decide_eq_false_2.
Qed.

Lemma has_categories_if (b : bool) (field : string) (m : MemberModel.t)
    (d : clan_dict) :
  has_categories d →
  has_categories (if b then alter (λ l, l ++ [m]) field d else d).
Proof.
  intros Hd. destruct b; [|done]. intros f Hf.
  apply lookup_alter_is_Some. by apply Hd.
Qed.

(** One round of the loop for a member of a registered clan. *)
Lemma audit_member_registered (m : MemberModel.t) (d : clan_dict) :
  registered clans m → has_categories d →
  transforms ref (audit_member e server clans clans_out m) d
             (record_member e server clans m d).
Proof.
  intros Hreg Hd. unfold registered in Hreg.
  unfold audit_member, record_member.
  unfold MemberAudit.has_discord, MemberAudit.discord_role_elder,
    MemberAudit.discord_role_coleader, MemberAudit.discord_role,
    MemberAudit.discord_member, MemberAudit.api_is_elder,
    MemberAudit.api_is_coleader.
  cbn [MemberAudit.member_model MemberAudit.server].
  destruct (MemberModel.discord_member m) as [user|] eqn:Eu.
  - unfold record_in.
    rewrite category_test_no_discord, Eu.
    rewrite bool_decide_eq_false_2 by done.
    rewrite (category_test_elder m user), (category_test_coleader m user),
      (category_test_clan_role m user) by done.
    apply transforms_not_and.
    eapply transforms_seq.
    { apply transforms_update; [done|]. apply Hd.
      unfold categories. repeat constructor. }
    apply transforms_not_and.
    eapply transforms_seq.
    { apply transforms_update; [done|].
      apply (has_categories_if _ _ _ _ Hd).
      unfold categories. repeat constructor. }
    destruct (clan_name_to_role e server (MemberModel.clan_name m)).
    + apply transforms_update; [done|].
      apply (has_categories_if _ _ _ _ (has_categories_if _ _ _ _ Hd)).
      unfold categories. repeat constructor.
    + apply transforms_ret.
  - unfold record_in.
    rewrite !category_test_unlinked by done.
    change (bool_decide ("no_discord" = "no_discord")) with true.
    change (bool_decide ("no_clan_role" = "no_discord")) with false.
    change (bool_decide ("coleader_promotion_req" = "no_discord")) with false.
    change (bool_decide ("elder_promotion_req" = "no_discord")) with false.
    apply (transforms_update _ _ _ true); [done|]. apply Hd.
    unfold categories. repeat constructor.
Qed.

Lemma not_and_run (a v : bool) (w : world) :
  not_and a (Ok v) w = (Ok (negb a && v), w).
Proof. by destruct a. Qed.

(** One round of the loop for a member whose clan name is not a key of
    [clans_out]: the first finding raises [KeyError]. *)
Lemma audit_member_unregistered (m : MemberModel.t) (w : world) :
  ¬ registered clans m →
  audit_member e server clans clans_out m w
  = if finding e server clans m
    then (Raise (KeyError (MemberModel.clan_name m)), w)
    else (Ok tt, w).
Proof.
  intros Hreg. unfold registered in Hreg.
  unfold finding, categories, existsb.
  unfold audit_member.
  unfold MemberAudit.has_discord, MemberAudit.discord_role_elder,
    MemberAudit.discord_role_coleader, MemberAudit.discord_role,
    MemberAudit.discord_member, MemberAudit.api_is_elder,
    MemberAudit.api_is_coleader.
  cbn [MemberAudit.member_model MemberAudit.server].
  destruct (MemberModel.discord_member m) as [user|] eqn:Eu.
  - rewrite category_test_no_discord, Eu.
    rewrite bool_decide_eq_false_2 by done.
    rewrite (category_test_elder m user), (category_test_coleader m user),
      (category_test_clan_role m user) by done.
    unfold mbind, M_bind, mret, M_ret, when, not_and, lift.
    destruct (MemberModel.role_is_elder m),
             (member_has_role server user "Elder"),
             (MemberModel.role_is_coleader m),
             (member_has_role server user "Co-Leader"); simpl;
      rewrite ?update_clan_unregistered by done; try reflexivity.
    all: destruct (clan_name_to_role e server (MemberModel.clan_name m));
      [|reflexivity].
    all: destruct (negb (existsb _ _)); simpl; [|reflexivity].
    all: by rewrite update_clan_unregistered.
  - rewrite !category_test_unlinked by done.
    rewrite update_clan_unregistered by done.
    reflexivity.
Qed.

Lemma matching_single (field : string) (m : MemberModel.t) :
  matching e server clans field [m]
  = if category_test e server clans field m then [m] else [].
Proof.
  unfold matching. rewrite filter_cons.
  destruct (category_test e server clans field m); by case_decide.
Qed.

Lemma matching_cons (field : string) (m : MemberModel.t) ms :
  matching e server clans field (m :: ms)
  = matching e server clans field [m] ++ matching e server clans field ms.
Proof. unfold matching. by rewrite <- filter_app. Qed.

Lemma record_in_lookup (m : MemberModel.t) (field f : string)
    (d : clan_dict) :
  record_in e server clans m field d !! f
  = if bool_decide (f = field) && category_test e server clans field m
    then (λ l, l ++ [m]) <$> d !! f
    else d !! f.
Proof.
  unfold record_in. case_bool_decide as Ef; simpl.
  - subst. destruct (category_test _ _ _ _ _); [|done].
    apply lookup_alter_eq.
  - destruct (category_test _ _ _ _ _); [|done].
    by apply lookup_alter_ne.
Qed.

(** What one round appends to each list of the shared dictionary. *)
Lemma record_member_lookup (m : MemberModel.t) (d : clan_dict) (f : string) :
  record_member e server clans m d !! f
  = (λ l, l ++ matching e server clans f [m]) <$> d !! f.
Proof.
  rewrite matching_single. unfold record_member.
  rewrite !record_in_lookup.
  destruct (decide (f ∈ categories)) as [Hf|Hf].
  - unfold categories in Hf.
    repeat (apply elem_of_cons in Hf as [->|Hf]);
      [| | | |by apply elem_of_nil in Hf].
    all: eval_string_tests; simpl.
    all: destruct (category_test _ _ _ _ _); destruct (d !! _); simpl;
      by rewrite ?app_nil_r.
  - rewrite (category_test_other f) by done.
    unfold categories in Hf. rewrite !not_elem_of_cons in Hf.
    destruct Hf as (H1 & H2 & H3 & H4 & _).
    rewrite !bool_decide_eq_false_2 by done. simpl.
    destruct (d !! f); simpl; by rewrite ?app_nil_r.
Qed.

Lemma record_member_no_finding (m : MemberModel.t) (d : clan_dict) :
  finding e server clans m = false → record_member e server clans m d = d.
Proof.
  unfold finding, categories, existsb. intros Hf.
  repeat (apply orb_false_elim in Hf as [? Hf]).
  unfold record_member, record_in.
  by repeat match goal with
            | E : category_test _ _ _ _ _ = false |- _ => rewrite E; clear E
            end.
Qed.

Lemma foldl_record_lookup (ms : list MemberModel.t) (d : clan_dict)
    (f : string) :
  foldl (λ d m, record_member e server clans m d) d ms !! f
  = (λ l, l ++ matching e server clans f ms) <$> d !! f.
Proof.
  revert d. induction ms as [|m ms IH]; intros d; simpl.
  - destruct (d !! f); simpl; by rewrite ?app_nil_r.
  - rewrite IH, record_member_lookup, (matching_cons f m ms).
    destruct (d !! f); simpl; by rewrite ?app_assoc.
Qed.

(** The loop over members of registered clans succeeds. *)
Lemma for_each_registered (ms : list MemberModel.t) (d : clan_dict) :
  Forall (registered clans) ms → has_categories d →
  transforms ref (for_each (audit_member e server clans clans_out) ms) d
             (foldl (λ d m, record_member e server clans m d) d ms).
Proof.
  intros Hreg. revert d. induction Hreg as [|m ms Hm Hreg IH]; intros d Hd.
  - apply transforms_ret.
  - simpl. eapply transforms_seq.
    + by apply audit_member_registered.
    + apply IH. by apply has_categories_record_member.
Qed.

(** Whenever the loop succeeds, the shared dictionary has received every
    member under the categories whose test it passes. *)
Lemma for_each_ok (ms : list MemberModel.t) (d : clan_dict) (w w' : world) :
  heap w !! ref = Some d → has_categories d →
  for_each (audit_member e server clans clans_out) ms w = (Ok tt, w') →
  w' = set_heap w
         (<[ref := foldl (λ d m, record_member e server clans m d) d ms]>
            (heap w)).
Proof.
  revert d w. induction ms as [|m ms IH]; intros d w Hw Hd Hrun.
  - injection Hrun as <-. simpl.
    rewrite list_insert_id by done. by rewrite set_heap_id.
  - simpl in Hrun. rewrite bind_unfold in Hrun. simpl.
    destruct (decide (MemberModel.clan_name m ∈ map RACFClan.name clans))
      as [Hm|Hm].
    + rewrite (audit_member_registered m d Hm Hd w Hw) in Hrun.
      apply (IH (record_member e server clans m d)) in Hrun.
      * rewrite Hrun. unfold set_heap. simpl.
        by rewrite list_insert_insert_eq.
      * simpl. apply list_lookup_insert_eq. by apply lookup_lt_Some in Hw.
      * by apply has_categories_record_member.
    + rewrite (audit_member_unregistered m w Hm) in Hrun.
      destruct (finding e server clans m) eqn:Ef; [discriminate|].
      rewrite (record_member_no_finding m d Ef). by apply IH.
Qed.

(** A loop that succeeds has met no finding on a member of a clan that
    [clans_out] lacks. *)
Lemma for_each_ok_findings (ms : list MemberModel.t) (d : clan_dict)
    (w w' : world) :
  heap w !! ref = Some d → has_categories d →
  for_each (audit_member e server clans clans_out) ms w = (Ok tt, w') →
  Forall (λ m, finding e server clans m = true → registered clans m) ms.
Proof.
  revert d w. induction ms as [|m ms IH]; intros d w Hw Hd Hrun.
  - constructor.
  - simpl in Hrun. rewrite bind_unfold in Hrun.
    destruct (decide (MemberModel.clan_name m ∈ map RACFClan.name clans))
      as [Hm|Hm].
    + rewrite (audit_member_registered m d Hm Hd w Hw) in Hrun.
      constructor; [done|].
      apply (IH (record_member e server clans m d)) in Hrun; [done| |].
      * simpl. apply list_lookup_insert_eq. by apply lookup_lt_Some in Hw.
      * by apply has_categories_record_member.
    + rewrite (audit_member_unregistered m w Hm) in Hrun.
      destruct (finding e server clans m) eqn:Ef; [discriminate|].
      constructor; [simpl; intros Hf; congruence|]. by apply (IH d w).
Qed.

Lemma finding_of_test (field : string) (m : MemberModel.t) :
  category_test e server clans field m = true →
  finding e server clans m = true.
Proof.
  intros Ht. unfold finding. apply existsb_exists. exists field.
  split; [|done]. apply list_elem_of_In.
  destruct (decide (field ∈ categories)) as [Hf|Hf]; [done|].
  by rewrite category_test_other in Ht.
Qed.

End Loop.

(** ** The audit *)

Section Audit.
Context `{Crapipy}.
Context (e : env) (server : Server) (clans : list RACFClan.t)
        (discord_users : DiscordUsers.t).

Lemma associate_members (du : DiscordUsers.t) (ms : list MemberModel.t) :
  (associate du (map PyMember ms)).1 = Ok (map (linked du) ms).
Proof.
  revert du. induction ms as [|m ms IH]; intros du; [done|].
  cbn [map associate getattr_tag setattr_discord_member].
  pose proof (tag_to_member_again du (MemberModel.tag m)) as Hagain.
  unfold linked at 1.
  destruct (DiscordUsers.tag_to_member du (MemberModel.tag m))
    as [user du'] eqn:Et.
  specialize (IH du').
  destruct (associate du' (map PyMember ms)) as [r du''].
  cbn [fst snd] in *. rewrite IH.
  change (Ok (MemberModel.set_discord_member m user :: map (linked du') ms)
          = Ok (MemberModel.set_discord_member m user :: map (linked du) ms)).
  do 2 f_equal. apply map_ext. intros m'. unfold linked. f_equal.
  apply Hagain.
Qed.

(** The association loop fails on the first object that is not a member
    model. *)
Lemma associate_list (du : DiscordUsers.t) (l : list MemberModel.t)
    (rest : list pyobj) :
  associate du (PyList l :: rest) = (Raise (AttributeError "list" "tag"), du).
Proof. reflexivity. Qed.

Let members : list MemberModel.t → list MemberModel.t :=
  map (linked discord_users).

Let clans_out (w : world) : OrderedDict.t nat :=
  OrderedDict.of_pairs
    (map (λ c, (RACFClan.name c, length (heap w))) clans).

Let expected : list MemberModel.t → world → report :=
  expected_report e server clans discord_users.

Lemma read_report_shared (w : world) (d : clan_dict) (h : list clan_dict) :
  h !! length (heap w) = Some d →
  map (λ p : string * nat, (p.1, default ∅ (h !! p.2))) (clans_out w)
  = map (λ p : string * nat, (p.1, d)) (clans_out w).
Proof.
  intros Hh. apply map_ext_in. intros p Hp.
  apply list_elem_of_In, clans_out_elem in Hp as [_ ->]. by rewrite Hh.
Qed.

Lemma audit_ok (ms : list MemberModel.t) (w w' : world) (r : report) :
  audit e server clans discord_users (map PyMember ms) w = (Ok r, w') →
  r = expected ms w.
Proof.
  unfold expected, expected_report, audit.
  rewrite bind_unfold, associate_members. unfold lift at 1.
  rewrite bind_unfold. unfold alloc at 1. rewrite bind_unfold.
  set (w1 := mkWorld (files w) (cache_timestamp w) (heap w ++ [clan_defaults])).
  assert (Hw1 : heap w1 !! length (heap w) = Some clan_defaults).
  { simpl. by apply list_lookup_middle. }
  destruct (for_each _ _ w1) as [[[]|x] w2] eqn:Eloop; [|discriminate].
  apply (for_each_ok e server clans (length (heap w)) _ clan_defaults) in Eloop;
    [|done|apply has_categories_defaults].
  unfold read_report. intros [= <- <-]. subst w2. simpl.
  apply (read_report_shared w).
  apply list_lookup_insert_eq. rewrite length_app. simpl. lia.
Qed.

Lemma audit_registered (ms : list MemberModel.t) (w : world) :
  Forall (registered clans) ms →
  ∃ w', audit e server clans discord_users (map PyMember ms) w
        = (Ok (expected ms w), w').
Proof.
  intros Hreg.
  destruct (audit e server clans discord_users (map PyMember ms) w)
    as [[r|x] w'] eqn:Erun.
  - exists w'. by rewrite (audit_ok ms w w' r Erun).
  - exfalso. revert Erun.
    unfold audit. rewrite bind_unfold, associate_members. unfold lift at 1.
    rewrite bind_unfold. unfold alloc at 1. rewrite bind_unfold.
    set (w1 := mkWorld (files w) (cache_timestamp w)
                       (heap w ++ [clan_defaults])).
    assert (Hw1 : heap w1 !! length (heap w) = Some clan_defaults).
    { simpl. by apply list_lookup_middle. }
    rewrite (for_each_registered e server clans (length (heap w))
               (map (linked discord_users) ms) clan_defaults);
      [discriminate| |apply has_categories_defaults|done].
    apply Forall_map. eapply Forall_impl; [exact Hreg|]. by intros m Hm.
Qed.

Lemma expected_elem (ms : list MemberModel.t) (w : world) c d :
  (c, d) ∈ expected ms w
  ↔ c ∈ map RACFClan.name clans
    ∧ d = final_dict e server clans (members ms).
Proof.
  unfold expected, expected_report. rewrite list_elem_of_fmap. split.
  - intros ([n rf] & [= -> ->] & Hp). apply clans_out_elem in Hp as [Hn _].
    done.
  - intros [Hc ->]. exists (c, length (heap w)). split; [done|].
    by apply clans_out_elem.
Qed.

Lemma final_dict_lookup (ms : list MemberModel.t) (f : string) :
  final_dict e server clans ms !! f
  = if bool_decide (f ∈ categories)
    then Some (matching e server clans f ms) else None.
Proof.
  unfold final_dict. rewrite foldl_record_lookup.
  case_bool_decide as Hf.
  - unfold categories in Hf.
    repeat (apply elem_of_cons in Hf as [->|Hf]); try done.
    by apply elem_of_nil in Hf.
  - unfold categories in Hf. rewrite !not_elem_of_cons in Hf.
    destruct Hf as (H1 & H2 & H3 & H4 & _).
    unfold clan_defaults. by rewrite !lookup_insert_ne, lookup_empty.
Qed.

(** Membership in a list of the report, in terms of the tests. *)
Lemma recorded_expected (ms : list MemberModel.t) (w : world)
    (c f : string) (x : MemberModel.t) :
  recorded (expected ms w) c f x
  ↔ c ∈ map RACFClan.name clans ∧ f ∈ categories
    ∧ x ∈ members ms ∧ category_test e server clans f x = true.
Proof.
  unfold recorded. split.
  - intros (d & l & Hd & Hl & Hx). apply expected_elem in Hd as [Hc ->].
    rewrite final_dict_lookup in Hl. case_bool_decide; [|done].
    injection Hl as <-. unfold matching in Hx.
    apply list_elem_of_filter in Hx as [Ht Hx]. done.
  - intros (Hc & Hf & Hx & Ht).
    exists (final_dict e server clans (members ms)),
           (matching e server clans f (members ms)).
    split; [by apply expected_elem|]. split.
    + by rewrite final_dict_lookup, bool_decide_eq_true_2.
    + unfold matching. by apply list_elem_of_filter.
Qed.

Lemma audit_ok_findings (ms : list MemberModel.t) (w w' : world)
    (r : report) (m : MemberModel.t) (field : string) :
  audit e server clans discord_users (map PyMember ms) w = (Ok r, w') →
  m ∈ ms →
  category_test e server clans field (linked discord_users m) = true →
  MemberModel.clan_name m ∈ map RACFClan.name clans.
Proof.
  unfold audit. rewrite bind_unfold, associate_members. unfold lift at 1.
  rewrite bind_unfold. unfold alloc at 1. rewrite bind_unfold.
  set (w1 := mkWorld (files w) (cache_timestamp w) (heap w ++ [clan_defaults])).
  assert (Hw1 : heap w1 !! length (heap w) = Some clan_defaults).
  { simpl. by apply list_lookup_middle. }
  destruct (for_each _ _ w1) as [[[]|x] w2] eqn:Eloop; [|discriminate].
  intros _ Hm Ht.
  apply (for_each_ok_findings e server clans (length (heap w)) _
           clan_defaults) in Eloop; [|done|apply has_categories_defaults].
  rewrite Forall_forall in Eloop.
  apply (Eloop (linked discord_users m)).
  - by apply list_elem_of_fmap_2.
  - by eapply finding_of_test.
Qed.

Lemma linked_discord_member (m : MemberModel.t) :
  MemberModel.discord_member (linked discord_users m)
  = (DiscordUsers.tag_to_member discord_users (MemberModel.tag m)).1.
Proof. reflexivity. Qed.

Lemma registered_member (ms : list MemberModel.t) (m : MemberModel.t) :
  Forall (registered clans) ms → m ∈ ms →
  MemberModel.clan_name m ∈ map RACFClan.name clans.
Proof. intros Hreg Hm. rewrite Forall_forall in Hreg. by apply Hreg. Qed.

(** Every entry of a report carries the same dictionary: the clans of
    [clans_out] share [clan_defaults]. *)
Lemma report_entries_shared (ms : list MemberModel.t) (w w' : world)
    (r : report) c1 d1 c2 d2 :
  audit e server clans discord_users (map PyMember ms) w = (Ok r, w') →
  (c1, d1) ∈ r → (c2, d2) ∈ r → d1 = d2.
Proof.
  intros Hrun H1 H2. apply audit_ok in Hrun. subst r.
  apply expected_elem in H1 as [_ ->]. by apply expected_elem in H2 as [_ ->].
Qed.

(** The member-processing code on a member list: over members of
    registered clans it returns a report;
    and in every report it returns, a member with a resolved chat
    identity whose clan role is not elder and whose chat identity holds
    the "Elder" role is recorded under elder_promotion_req, while nobody
    whose clan role is elder is recorded under elder_promotion_req. *)
Theorem elder_promotion_req_recorded (ms : list MemberModel.t) (w : world) :
  (Forall (registered clans) ms →
   ∃ r w',
     audit e server clans discord_users (map PyMember ms) w = (Ok r, w'))
  ∧ ∀ r w',
      audit e server clans discord_users (map PyMember ms) w = (Ok r, w') →
      (∀ m user,
         m ∈ ms →
         (DiscordUsers.tag_to_member discord_users (MemberModel.tag m)).1
         = Some user →
         MemberModel.role m ≠ role_elder →
         member_has_role server user "Elder" = true →
         recorded r (MemberModel.clan_name m) "elder_promotion_req"
                  (linked discord_users m))
      ∧ (∀ c x, recorded r c "elder_promotion_req" x →
                MemberModel.role x ≠ role_elder).
Proof.
  split.
  { intros Hreg. destruct (audit_registered ms w Hreg) as [w' Hrun]. eauto. }
  intros r w' Hrun. pose proof (audit_ok ms w w' r Hrun) as ->. split.
  - intros m user Hm Huser Hrole Hchat.
    assert (Ht : category_test e server clans "elder_promotion_req"
                   (linked discord_users m) = true).
    { rewrite (category_test_elder _ _ _ _ user) by done.
      unfold MemberModel.role_is_elder. simpl.
      by rewrite bool_decide_eq_false_2, Hchat. }
    apply recorded_expected.
    split; [by eapply audit_ok_findings|].
    split; [unfold categories; repeat constructor|].
    split; [by apply list_elem_of_fmap_2|done].
  - intros c x Hx. apply recorded_expected in Hx as (_ & _ & _ & Ht).
    destruct (MemberModel.discord_member x) as [user|] eqn:Eu.
    + rewrite (category_test_elder _ _ _ _ user) in Ht by done.
      apply andb_true_iff in Ht as [Ht _].
      unfold MemberModel.role_is_elder in Ht.
      apply negb_true_iff in Ht. by apply bool_decide_eq_false in Ht.
    + rewrite category_test_unlinked in Ht by done. discriminate.
Qed.

(** The member-processing code on a member list: over members of
    registered clans it returns a report;
    and in every report it returns, a member whose game tag
    resolves to no chat identity is recorded under no_discord, and under
    no other category of any clan. *)
Theorem unlinked_member_only_no_discord (ms : list MemberModel.t)
    (w : world) :
  (Forall (registered clans) ms →
   ∃ r w',
     audit e server clans discord_users (map PyMember ms) w = (Ok r, w'))
  ∧ ∀ r w',
      audit e server clans discord_users (map PyMember ms) w = (Ok r, w') →
      ∀ m,
        m ∈ ms →
        (DiscordUsers.tag_to_member discord_users (MemberModel.tag m)).1
        = None →
        recorded r (MemberModel.clan_name m) "no_discord"
                 (linked discord_users m)
        ∧ ∀ c field, recorded r c field (linked discord_users m) →
                     field = "no_discord".
Proof.
  split.
  { intros Hreg. destruct (audit_registered ms w Hreg) as [w' Hrun]. eauto. }
  intros r w' Hrun. pose proof (audit_ok ms w w' r Hrun) as ->.
  intros m Hm Hnone.
  assert (Ht : category_test e server clans "no_discord"
                 (linked discord_users m) = true)
    by by rewrite category_test_unlinked.
  split.
  - apply recorded_expected.
    split; [by eapply audit_ok_findings|].
    split; [unfold categories; repeat constructor|].
    split; [by apply list_elem_of_fmap_2|done].
  - intros c field Hrec.
    apply recorded_expected in Hrec as (_ & _ & _ & Ht').
    rewrite category_test_unlinked in Ht' by done.
    by apply bool_decide_eq_true in Ht'.
Qed.

(** X30. Whenever the member-processing code returns a report, every
    category list of every clan entry is the list of the input members, of
    whatever clan, that pass the test of the category, in the order of the
    input: the loop appends, nothing is sorted, and the clans share the
    lists. *)
Theorem category_lists_keep_input_order (ms : list MemberModel.t)
    (w w' : world) (r : report) :
  audit e server clans discord_users (map PyMember ms) w = (Ok r, w') →
  ∀ c field l,
    category_list r c field l →
    l = matching e server clans field (map (linked discord_users) ms)
    ∧ sublist l (map (linked discord_users) ms).
Proof.
  intros Hrun c field l (d & Hd & Hl). apply audit_ok in Hrun. subst r.
  apply expected_elem in Hd as [_ ->].
  rewrite final_dict_lookup in Hl. case_bool_decide; [|done].
  injection Hl as <-. split; [done|]. apply sublist_filter.
Qed.

End Audit.

(** The members handed to the audit come clan by clan, each clan's members
    in the order of its model. *)
Lemma collect_members_app (ms1 ms2 : list ClanModel.t) :
  collect_members (ms1 ++ ms2) = collect_members ms1 ++ collect_members ms2.
Proof. unfold collect_members. apply flat_map_app. Qed.

Lemma collect_members_tags (clan_model : ClanModel.t) :
  map MemberModel.tag (collect_members [clan_model])
  = map MemberModel.tag (ClanModel.members clan_model).
Proof.
  unfold collect_members. simpl. rewrite app_nil_r, map_map. done.
Qed.

(** ** The run command *)

Section Run.
Context `{Crapipy}.

(** C1. Every invocation of the run command ends in an exception: either
    the fetch raised it, or the fetch returned its pair and the
    association loop, iterating over that pair, asks the member list for
    its [tag].  No dictionary of the report has been created by then. *)
Theorem racfaudit_run_raises (e : env) (w : world) :
  ∃ x w',
    racfaudit_run e w = (Raise x, w')
    ∧ heap w' = heap w
    ∧ match (family_member_models e (ctx_server e) w).1 with
      | Ok _ => x = AttributeError "list" "tag"
      | Raise y => x = y
      end.
Proof.
  unfold racfaudit_run. rewrite bind_unfold.
  pose proof (family_member_models_heap e (ctx_server e) w) as Hheap.
  destruct (family_member_models e (ctx_server e) w) as [[p|x] w1].
  - exists (AttributeError "list" "tag"), w1. by repeat split.
  - exists x, w1. by repeat split.
Qed.

End Run.

(** ** Scenarios *)

Section Scenarios.
Import Scenario.
Context `{Crapipy}.

Lemma final_dict_category (e : env) (srv : Server) (cl : list RACFClan.t)
    (ms : list MemberModel.t) (field : string) :
  field ∈ categories →
  final_dict e srv cl ms !! field = Some (matching e srv cl field ms).
Proof.
  intros Hf. by rewrite final_dict_lookup, bool_decide_eq_true_2.
Qed.

(** The member-processing code on the member list of the scenario of clan
    "Alpha" (tag AAA) with the single member X (role member,
    tag t1); t1 resolves to a chat identity that holds "Elder" and not
    "AlphaRole"; the registry maps "Alpha" to "AlphaRole".  The report
    over that member list has the one entry "Alpha", with X
    under elder_promotion_req and under no_clan_role, and with no_discord
    and coleader_promotion_req empty. *)
Theorem scenario_alpha_report (w : world) :
  ∃ d w',
    audit env_alpha server (clans env_alpha server) users
          [PyMember X_fetched] w
    = (Ok [("Alpha", d)], w')
    ∧ d !! "elder_promotion_req" = Some [X_linked]
    ∧ d !! "no_clan_role" = Some [X_linked]
    ∧ d !! "no_discord" = Some []
    ∧ d !! "coleader_promotion_req" = Some [].
Proof.
  destruct (audit_registered env_alpha server (clans env_alpha server)
              users [X_fetched] w) as [w' Hrun].
  { repeat constructor. }
  exists (final_dict env_alpha server (clans env_alpha server) [X_linked]), w'.
  split; [exact Hrun|].
  repeat split; rewrite final_dict_category;
    first [reflexivity | unfold categories; repeat constructor].
Qed.

(** The member-processing code on two clans.  X belongs to "Alpha" and has
    findings,
    Z belongs to "Bravo" and has no chat identity: the entry of "Bravo"
    lists X under elder_promotion_req and the entry of "Alpha" lists Z
    under no_discord, because both entries are the one dictionary
    [clan_defaults]. *)
Theorem clans_out_shares_one_dictionary (w : world) :
  ∃ r w',
    audit env_family server (clans env_family server) users
          [PyMember X_fetched; PyMember Z_fetched] w
    = (Ok r, w')
    ∧ recorded r "Bravo" "elder_promotion_req" X_linked
    ∧ MemberModel.clan_name X_linked = "Alpha"
    ∧ recorded r "Alpha" "no_discord" Z_linked
    ∧ MemberModel.clan_name Z_linked = "Bravo".
Proof.
  destruct (audit_registered env_family server (clans env_family server)
              users [X_fetched; Z_fetched] w) as [w' Hrun].
  { repeat constructor. }
  eexists _, w'. split; [exact Hrun|].
  split; [|split; [reflexivity|split; [|reflexivity]]].
  - apply recorded_expected. split; [repeat constructor|].
    split; [unfold categories; repeat constructor|].
    split; [|reflexivity]. by left.
  - apply recorded_expected. split; [repeat constructor|].
    split; [unfold categories; repeat constructor|].
    split; [|reflexivity]. right. by left.
Qed.

End Scenarios.

Section Witnesses.
Import Scenario.

(** The fetch of the scenario returns X with its clan set, live. *)
Example fetch_alpha :
  (@family_member_models snapshot_models env_alpha server empty_world).1
  = Ok ([X_fetched], false).
Proof. reflexivity. Qed.

(** The run command on the scenario of C7. *)
Example run_alpha :
  (@racfaudit_run snapshot_models env_alpha empty_world).1
  = Raise (AttributeError "list" "tag").
Proof. reflexivity. Qed.

(** Two chat identities linked to the same game tag: the first one of the
    table is returned. *)
Example duplicate_tag_first_wins :
  (DiscordUsers.tag_to_member
     (DiscordUsers.init [("u1", "t1"); ("u2", "t1")] server) "t1").1
  = Some chat_x.
Proof. reflexivity. Qed.

(** C3, as stated, fails: the API fetch for "BBB" fails, no cache file
    exists for "BBB", and the operation raises instead of returning an
    empty list with source cache. *)
Lemma cache_miss_raises :
  get_clans env_down (map RACFClan.tag (clans env_down server))
  = Raise APIError
  ∧ map RACFClan.tag (clans env_down server) = ["BBB"]
  ∧ files empty_world !! cache_file_path "BBB" = None
  ∧ @family_member_models snapshot_models env_down server empty_world
    = (Raise (FileNotFoundError "data/racf_audit/clans/BBB.json"),
       empty_world)
  ∧ (@family_member_models snapshot_models env_down server empty_world).1
    ≠ Ok ([], true).
Proof. repeat split; try reflexivity. discriminate. Qed.

Lemma family_member_models_live_or_cache_witness :
  @family_member_models snapshot_models env_alpha server empty_world
  = (Ok ([X_fetched], false), fetched_world)
  ∧ ∃ live, get_clans env_alpha (map RACFClan.tag (clans env_alpha server))
            = Ok live
            ∧ [X_fetched] = collect_members live.
Proof.
  assert (Hrun : @family_member_models snapshot_models env_alpha server
                   empty_world
                 = (Ok ([X_fetched], false), fetched_world))
    by (vm_compute; reflexivity).
  split; [exact Hrun|].
  destruct (@family_member_models_live_or_cache snapshot_models env_alpha
              server empty_world fetched_world [X_fetched] false Hrun)
    as [[_ Hlive]|[Hcache _]].
  - exact Hlive.
  - discriminate Hcache.
Defined.

Lemma family_member_models_fallback_witness :
  get_clans env_down (map RACFClan.tag (clans env_down server))
  = Raise APIError
  ∧ Forall (@cached snapshot_models (files cached_world))
           (map RACFClan.tag (clans env_down server))
  ∧ @family_member_models snapshot_models env_down server cached_world
    = (Ok ([Z_fetched], true), cached_world).
Proof.
  assert (Hapi : get_clans env_down (map RACFClan.tag (clans env_down server))
                 = Raise APIError) by reflexivity.
  assert (Hall : Forall (@cached snapshot_models (files cached_world))
                        (map RACFClan.tag (clans env_down server))).
  { repeat constructor. exists bravo. vm_compute. reflexivity. }
  split; [exact Hapi|]. split; [exact Hall|].
  destruct (@family_member_models_fallback snapshot_models env_down server
              cached_world Hapi) as [Hcached _].
  destruct (Hcached Hall) as [Hrun _]. exact Hrun.
Defined.

Lemma cache_round_trip_witness :
  get_clans env_alpha (map RACFClan.tag (clans env_alpha server))
  = Ok ([] ++ alpha :: [])
  ∧ (ClanModel.tag alpha ∉ map ClanModel.tag [])
  ∧ @Clan snapshot_models (@to_dict snapshot_models alpha) = alpha
  ∧ ∃ w',
      @family_clan_models snapshot_models env_alpha server empty_world
      = (Ok ([] ++ alpha :: []), w')
      ∧ files w' !! cache_file_path (ClanModel.tag alpha)
        = Some (@to_dict snapshot_models alpha)
      ∧ load_from_cache [ClanModel.tag alpha] w' = (Ok [alpha], w').
Proof.
  assert (Hlast : ClanModel.tag alpha ∉ (map ClanModel.tag []))
    by (simpl; apply not_elem_of_nil).
  split; [reflexivity|]. split; [exact Hlast|]. split; [reflexivity|].
  exact (@cache_round_trip snapshot_models env_alpha server empty_world
           [] [] alpha eq_refl Hlast eq_refl).
Defined.

Lemma elder_promotion_req_recorded_witness :
  Forall (registered (clans env_alpha server)) [X_fetched]
  ∧ @audit snapshot_models env_alpha server (clans env_alpha server) users
           [PyMember X_fetched] empty_world
    = (Ok [("Alpha", alpha_dict)], mkWorld ∅ None [alpha_dict])
  ∧ recorded [("Alpha", alpha_dict)] "Alpha" "elder_promotion_req" X_linked.
Proof.
  assert (Hrun : @audit snapshot_models env_alpha server
                   (clans env_alpha server) users [PyMember X_fetched]
                   empty_world
                 = (Ok [("Alpha", alpha_dict)], mkWorld ∅ None [alpha_dict]))
    by (vm_compute; reflexivity).
  split; [repeat constructor|]. split; [exact Hrun|].
  destruct (@elder_promotion_req_recorded snapshot_models env_alpha server
              (clans env_alpha server) users [X_fetched] empty_world)
    as [_ Hspec].
  destruct (Hspec _ _ Hrun) as [Hrec _].
  apply (Hrec X_fetched chat_x).
  - repeat constructor.
  - reflexivity.
  - discriminate.
  - reflexivity.
Defined.

Lemma unlinked_member_only_no_discord_witness :
  Forall (registered (clans env_family server)) [X_fetched; Z_fetched]
  ∧ ∃ r w',
      @audit snapshot_models env_family server (clans env_family server)
             users [PyMember X_fetched; PyMember Z_fetched] empty_world
      = (Ok r, w')
      ∧ recorded r "Bravo" "no_discord" Z_linked
      ∧ ∀ c field, recorded r c field Z_linked → field = "no_discord".
Proof.
  assert (Hreg : Forall (registered (clans env_family server))
                        [X_fetched; Z_fetched])
    by repeat constructor.
  split; [exact Hreg|].
  destruct (@unlinked_member_only_no_discord snapshot_models env_family
              server (clans env_family server) users
              [X_fetched; Z_fetched] empty_world)
    as [Hret Hspec].
  destruct (Hret Hreg) as (r & w' & Hrun).
  exists r, w'. split; [exact Hrun|].
  apply (Hspec r w' Hrun Z_fetched).
  - repeat constructor.
  - reflexivity.
Defined.

End Witnesses.

(** * Further properties *)

(** ** Lists *)

Lemma find_split {A} (f : A → bool) (l : list A) :
  match find f l with
  | Some x =>
      ∃ before after, l = before ++ x :: after ∧ f x = true
                      ∧ Forall (λ y, f y = false) before
  | None => Forall (λ y, f y = false) l
  end.
Proof.
  induction l as [|a l IH]; simpl; [constructor|].
  destruct (f a) eqn:Ea.
  - exists [], l. repeat split; auto.
  - destruct (find f l) as [x|].
    + destruct IH as (before & after & -> & Hx & Hb).
      exists (a :: before), after. repeat split; auto.
    + constructor; auto.
Qed.

Lemma find_map {A B} (f : B → bool) (g : A → B) (l : list A) :
  find f (map g l) = g <$> find (λ a, f (g a)) l.
Proof.
  induction l as [|a l IH]; simpl; [done|]. by destruct (f (g a)).
Qed.

(** ** Identity linker and the player table *)

Section LinkerTable.
Import DiscordUsers.

Lemma build_elem (srv : Server) (players : list (string * string))
    (a : DiscordUser.t) :
  a ∈ build srv players
  ↔ ∃ id, (id, DiscordUser.tag a) ∈ players
          ∧ get_member srv id = Some (DiscordUser.user a).
Proof.
  induction players as [|[id tg] players IH]; simpl.
  - split; [by intros ?%elem_of_nil|]. by intros (? & ?%elem_of_nil & _).
  - destruct (get_member srv id) as [u|] eqn:Eu.
    + rewrite elem_of_cons, IH. split.
      * intros [->|(id' & Hin & Hu)]; simpl.
        -- exists id. split; [by left|done].
        -- exists id'. split; [by right|done].
      * intros (id' & Hin & Hu). apply elem_of_cons in Hin as [[= -> Ht]|Hin].
        -- left. destruct a as [au at']. simpl in *. congruence.
        -- right. eauto.
    + rewrite IH. split.
      * intros (id' & Hin & Hu). exists id'. split; [by right|done].
      * intros (id' & Hin & Hu). apply elem_of_cons in Hin as [[= -> Ht]|Hin].
        -- congruence.
        -- eauto.
Qed.

(** X1. A resolved chat identity is a member of the server that the player
    table links to the queried tag. *)
Theorem resolved_identity_is_linked_member (players : list (string * string))
    (srv : Server) (tag : string) (u : Member) :
  (tag_to_member (init players srv) tag).1 = Some u →
  ∃ id, (id, tag) ∈ players ∧ get_member srv id = Some u.
Proof.
  intros Hres. change (scan (build srv players) tag = Some u) in Hres.
  pose proof (scan_first (build srv players) tag) as Hscan.
  rewrite Hres in Hscan. destruct Hscan as (l1 & a & l2 & Hl & <- & <- & _).
  apply build_elem. rewrite Hl. apply elem_of_app. right. by left.
Qed.

(** X2. A tag resolves to nothing exactly when no entry of the player
    table links it to a member of the server: entries of members who are not
    on the server do not count. *)
Theorem unresolved_iff_no_linked_member (players : list (string * string))
    (srv : Server) (tag : string) :
  (tag_to_member (init players srv) tag).1 = None
  ↔ ∀ id, (id, tag) ∈ players → get_member srv id = None.
Proof.
  change ((tag_to_member (init players srv) tag).1)
    with (scan (build srv players) tag).
  pose proof (scan_first (build srv players) tag) as Hscan. split.
  - intros Hres id Hin. rewrite Hres in Hscan.
    destruct (get_member srv id) as [u|] eqn:Eu; [|done]. exfalso.
    rewrite Forall_forall in Hscan.
    apply (Hscan (DiscordUser.mk u tag)); [|done].
    apply build_elem. by exists id.
  - intros Hnone. destruct (scan (build srv players) tag) as [u|]; [|done].
    destruct Hscan as (l1 & a & l2 & Hl & Ht & Hu & _).
    assert (Ha : a ∈ build srv players).
    { rewrite Hl. apply elem_of_app. right. by left. }
    apply build_elem in Ha as (id & Hin & Hg). rewrite Ht in Hin.
    rewrite (Hnone id Hin) in Hg. discriminate.
Qed.

(** X3. The user list is computed once: after a resolution the object
    remembers the list it used, and a later resolution on that object
    returns what it would have returned on the object before. *)
Theorem resolution_is_memoised (self : t) (tag tag' : string) :
  _user_list (tag_to_member self tag).2 = Some (user_list self).1
  ∧ (tag_to_member (tag_to_member self tag).2 tag').1
    = (tag_to_member self tag').1.
Proof.
  split; [|apply tag_to_member_again].
  rewrite tag_to_member_snd. unfold user_list.
  by destruct (_user_list self) eqn:E.
Qed.

End LinkerTable.

(** ** Roles of the chat server *)

Lemma utils_get_role_split (roles : list Role) (name : string) :
  match utils_get_role roles name with
  | Some r =>
      ∃ before after, roles = before ++ r :: after ∧ role_name r = name
                      ∧ Forall (λ y, role_name y ≠ name) before
  | None => Forall (λ y, role_name y ≠ name) roles
  end.
Proof.
  unfold utils_get_role.
  pose proof (find_split (λ r, bool_decide (role_name r = name)) roles) as Hf.
  destruct (find _ roles) as [r|].
  - destruct Hf as (before & after & Hl & Hr & Hb).
    exists before, after. split; [done|].
    split; [by apply bool_decide_eq_true in Hr|].
    eapply Forall_impl; [exact Hb|]. intros y Hy.
    by apply bool_decide_eq_false in Hy.
  - eapply Forall_impl; [exact Hf|]. intros y Hy.
    by apply bool_decide_eq_false in Hy.
Qed.

(** X4. Asking for a role name that no role of the server carries answers
    false: the lookup yields no role and nothing is raised. *)
Theorem member_has_role_unknown_name (srv : Server) (m : Member)
    (name : string) :
  Forall (λ r, role_name r ≠ name) (server_roles srv) →
  member_has_role srv m name = false.
Proof.
  intros Hnone. unfold member_has_role.
  pose proof (utils_get_role_split (server_roles srv) name) as Hget.
  destruct (utils_get_role (server_roles srv) name) as [r|]; [|done].
  destruct Hget as (before & after & Hl & Hr & _).
  rewrite Forall_forall in Hnone. exfalso. apply (Hnone r); [|done].
  rewrite Hl. apply elem_of_app. right. by left.
Qed.

(** X5. A member has the role of a given name exactly when the member
    holds, by id, the first role of the server that carries the name; a
    later role with the same name is never looked at. *)
Theorem member_has_role_first_named (srv : Server) (m : Member)
    (name : string) :
  member_has_role srv m name = true
  ↔ ∃ before r after,
      server_roles srv = before ++ r :: after
      ∧ role_name r = name
      ∧ Forall (λ y, role_name y ≠ name) before
      ∧ ∃ held, held ∈ member_roles m ∧ role_id held = role_id r.
Proof.
  unfold member_has_role.
  pose proof (utils_get_role_split (server_roles srv) name) as Hget.
  destruct (utils_get_role (server_roles srv) name) as [r|]; simpl.
  - destruct Hget as (before & after & Hl & Hr & Hb). split.
    + intros Hex. apply existsb_exists in Hex as (held & Hin & Heq).
      exists before, r, after. repeat split; try done.
      exists held. split; [by apply list_elem_of_In|].
      unfold role_eqb in Heq. by apply bool_decide_eq_true in Heq.
    + intros (before' & r' & after' & Hl' & Hr' & Hb' & held & Hin & Hid).
      assert (r' = r) as ->.
      { rewrite Hl in Hl'. clear -Hl' Hr Hr' Hb Hb'.
        revert before' Hl' Hb'.
        induction before as [|x before IH]; intros [|y before'] Hl' Hb'.
        - by injection Hl'.
        - injection Hl' as -> _. apply Forall_cons in Hb' as [Hy _]. done.
        - injection Hl' as -> _. apply Forall_cons in Hb as [Hx _]. done.
        - injection Hl' as -> Hl'. apply Forall_cons in Hb as [_ Hb].
          apply Forall_cons in Hb' as [_ Hb']. by apply (IH Hb before'). }
      apply existsb_exists. exists held. split; [by apply list_elem_of_In|].
      unfold role_eqb. by apply bool_decide_eq_true.
  - split; [done|].
    intros (before & r & after & Hl & Hr & _).
    rewrite Forall_forall in Hget. exfalso. apply (Hget r); [|done].
    rewrite Hl. apply elem_of_app. right. by left.
Qed.

(** ** Clan registry *)

Lemma clan_tags_fold_all (acc : list string) (config : list ConfigClan.t) :
  foldl (λ tags clan, tags ++ [ConfigClan.tag clan]) acc config
  = acc ++ map ConfigClan.tag config.
Proof.
  revert acc. induction config as [|c config IH]; intros acc; simpl.
  - by rewrite app_nil_r.
  - by rewrite IH, <- app_assoc.
Qed.

Lemma clan_tags_fold_type (t : string) (acc : list string)
    (config : list ConfigClan.t) :
  foldl (λ tags clan,
           if bool_decide (t = ConfigClan.type clan)
           then tags ++ [ConfigClan.tag clan]
           else tags)
        acc config
  = acc ++ map ConfigClan.tag
             (filter (λ clan, t = ConfigClan.type clan) config).
Proof.
  revert acc. induction config as [|c config IH]; intros acc; simpl.
  - by rewrite app_nil_r.
  - rewrite IH, filter_cons.
    case_bool_decide; case_decide; try done; simpl.
    by rewrite <- app_assoc.
Qed.

(** X6. [clan_tags] lists, in configuration order, the tags of the clans
    of the requested type, and the tags of all clans when no type is given;
    the typed list is a sublist of the full one. *)
Theorem clan_tags_by_type (e : env) (t : string) :
  clan_tags e None = map ConfigClan.tag (config_clans e)
  ∧ clan_tags e (Some t)
    = map ConfigClan.tag
        (filter (λ clan, t = ConfigClan.type clan) (config_clans e))
  ∧ sublist (clan_tags e (Some t)) (clan_tags e None).
Proof.
  assert (H1 : clan_tags e None = map ConfigClan.tag (config_clans e))
    by apply (clan_tags_fold_all []).
  assert (H2 : clan_tags e (Some t)
               = map ConfigClan.tag
                   (filter (λ clan, t = ConfigClan.type clan) (config_clans e)))
    by apply (clan_tags_fold_type t []).
  split; [done|]. split; [done|].
  rewrite H1, H2. apply fmap_sublist, sublist_filter.
Qed.

(** X7. The clans built from the configuration keep its order and size:
    their tags are the tags [clan_tags] returns and their roles are the
    server roles found under the configured role names. *)
Theorem clans_follow_config (e : env) (srv : Server) :
  map RACFClan.tag (clans e srv) = clan_tags e None
  ∧ map RACFClan.name (clans e srv) = map ConfigClan.name (config_clans e)
  ∧ clan_roles e srv
    = map (λ c, server_role srv (ConfigClan.role_name c)) (config_clans e).
Proof.
  split; [|split].
  - unfold clan_tags. rewrite (clan_tags_fold_all []). simpl.
    unfold clans. by rewrite map_map.
  - unfold clans. by rewrite map_map.
  - unfold clan_roles, clans. by rewrite map_map.
Qed.

Lemma server_role_found (srv : Server) (name : string) (r : Role) :
  server_role srv name = Some r → r ∈ server_roles srv ∧ role_name r = name.
Proof.
  unfold server_role. intros Hr.
  pose proof (utils_get_role_split (server_roles srv) name) as Hget.
  rewrite Hr in Hget. destruct Hget as (before & after & Hl & Hn & _).
  split; [|done]. rewrite Hl. apply elem_of_app. right. by left.
Qed.

Lemma clan_name_to_role_clan (e : env) (srv : Server) (clan_name : string)
    (r : Role) :
  clan_name_to_role e srv clan_name = Some r →
  ∃ c, c ∈ clans e srv ∧ RACFClan.name c = clan_name
       ∧ RACFClan.role c = Some r.
Proof.
  unfold clan_name_to_role. intros Hr.
  pose proof (find_split (λ clan, bool_decide (RACFClan.name clan = clan_name))
                         (clans e srv)) as Hf.
  destruct (find _ (clans e srv)) as [c|]; [|done].
  destruct Hf as (before & after & Hl & Hc & _). exists c.
  split; [rewrite Hl; apply elem_of_app; right; by left|].
  split; [by apply bool_decide_eq_true in Hc|done].
Qed.

(** X8. The role of a clan name is the server role found under the role
    name of the first configured clan with that name, so it is a role of
    the server carrying the configured role name; a clan name that the
    configuration lacks has no role. *)
Theorem clan_name_to_role_configured (e : env) (srv : Server)
    (clan_name : string) :
  (clan_name ∉ map ConfigClan.name (config_clans e) →
   clan_name_to_role e srv clan_name = None)
  ∧ ∀ r, clan_name_to_role e srv clan_name = Some r →
         ∃ before c after,
           config_clans e = before ++ c :: after
           ∧ ConfigClan.name c = clan_name
           ∧ Forall (λ c', ConfigClan.name c' ≠ clan_name) before
           ∧ r ∈ server_roles srv
           ∧ role_name r = ConfigClan.role_name c.
Proof.
  unfold clan_name_to_role, clans. rewrite find_map. simpl.
  pose proof (find_split
                (λ a, bool_decide (ConfigClan.name a = clan_name))
                (config_clans e)) as Hf.
  destruct (find _ (config_clans e)) as [c|]; simpl.
  - destruct Hf as (before & after & Hl & Hc & Hb).
    apply bool_decide_eq_true in Hc. split.
    + intros Hn. exfalso. apply Hn. rewrite Hl, map_app. simpl.
      apply elem_of_app. right. rewrite Hc. by left.
    + intros r Hr. apply server_role_found in Hr as [Hin Hname].
      exists before, c, after. repeat split; try done.
      eapply Forall_impl; [exact Hb|]. intros c' Hc'.
      by apply bool_decide_eq_false in Hc'.
  - split; [done|]. intros r Hr. discriminate.
Qed.

Lemma discord_clan_roles_elem (m : MemberModel.t) (srv : Server)
    (cl : list RACFClan.t) (user : Member) (r : Role) :
  MemberModel.discord_member m = Some user →
  r ∈ MemberAudit.discord_clan_roles (MemberAudit.mk m srv cl)
  ↔ (∃ c, c ∈ cl ∧ RACFClan.role c = Some r)
    ∧ existsb (role_eqb r) (member_roles user) = true.
Proof.
  intros Hu. unfold MemberAudit.discord_clan_roles, MemberAudit.discord_member.
  simpl. rewrite Hu. rewrite list_elem_of_omap. split.
  - intros (c & Hc & Hr). destruct (RACFClan.role c) as [r'|] eqn:Er; [|done].
    simpl in Hr. destruct (existsb _ _) eqn:Ex; [|done].
    injection Hr as ->. split; [by exists c|done].
  - intros [(c & Hc & Er) Hx]. exists c. split; [done|].
    rewrite Er. simpl. by rewrite Hx.
Qed.

(** X9. The clan-role test of the audit goes through the list of clan
    roles the chat identity holds; for the role of a registered clan it
    comes to asking whether the chat identity holds that role. *)
Theorem clan_role_test_is_membership (e : env) (srv : Server)
    (m : MemberModel.t) (user : Member) (clan_role : Role) :
  MemberModel.discord_member m = Some user →
  clan_name_to_role e srv (MemberModel.clan_name m) = Some clan_role →
  existsb (role_eqb clan_role)
          (MemberAudit.discord_clan_roles (MemberAudit.mk m srv (clans e srv)))
  = existsb (role_eqb clan_role) (member_roles user).
Proof.
  intros Hu Hrole. apply clan_name_to_role_clan in Hrole as (c0 & Hc0 & _ & Hr0).
  apply eq_true_iff_eq. rewrite !existsb_exists. split.
  - intros (r & Hin & Heq).
    apply list_elem_of_In, (discord_clan_roles_elem _ _ _ user) in Hin
      as [_ Hheld]; [|done].
    apply existsb_exists in Hheld as (held & Hin & Hid).
    exists held. split; [done|].
    unfold role_eqb in *. apply bool_decide_eq_true in Heq, Hid.
    apply bool_decide_eq_true. congruence.
  - intros (held & Hin & Heq). exists clan_role. split.
    + apply list_elem_of_In, (discord_clan_roles_elem _ _ _ user); [done|].
      split; [by exists c0|]. apply existsb_exists. by exists held.
    + unfold role_eqb. by apply bool_decide_eq_true.
Qed.

(** ** Cache files and the fetch *)

(** X10. Two clan tags share a cache file only if they are the same tag. *)
Theorem cache_files_distinct (t1 t2 : string) :
  cache_file_path t1 = cache_file_path t2 ↔ t1 = t2.
Proof. split; [apply cache_file_path_inj|by intros ->]. Qed.

(** X11. The cache file of a tag lies in data/racf_audit/clans unless the
    tag begins with the path separator: [os.path.join] then drops the
    directory and the path is the tag itself with the suffix. *)
Theorem cache_file_path_location (clan_tag : string) :
  (os_path.startswith_sep clan_tag = false →
   cache_file_path clan_tag
   = "data/racf_audit/clans/" +:+ clan_tag +:+ ".json")
  ∧ (os_path.startswith_sep clan_tag = true →
     cache_file_path clan_tag = clan_tag +:+ ".json").
Proof.
  rewrite cache_file_path_eq.
  assert (Hs : os_path.startswith_sep (clan_tag +:+ ".json")
               = os_path.startswith_sep clan_tag)
    by by destruct clan_tag.
  rewrite Hs. split; by intros ->.
Qed.

Section FetchMore.
Context `{Crapipy}.

Lemma saved_is_Some (fs : gmap string json) (ms : list ClanModel.t)
    (path : string) :
  is_Some (fs !! path)
  ∨ path ∈ map (λ m, cache_file_path (ClanModel.tag m)) ms →
  is_Some (saved fs ms !! path).
Proof.
  unfold saved. revert fs. induction ms as [|m ms IH]; intros fs; simpl.
  - intros [Hs|Hin]; [done|]. by apply elem_of_nil in Hin.
  - intros Hor. apply IH.
    destruct (decide (path = cache_file_path (ClanModel.tag m))) as [->|Hne].
    + left. rewrite lookup_insert_eq. by eexists.
    + destruct Hor as [Hs|Hin].
      * left. by rewrite lookup_insert_ne.
      * apply elem_of_cons in Hin as [->|Hin]; [done|]. by right.
Qed.

(** X12. Saving a batch of models writes no file other than those of the
    tags in the batch, and changes neither the timestamp nor any
    dictionary. *)
Theorem save_to_cache_keeps_other_files (ms : list ClanModel.t) (w : world)
    (clan_tag : string) :
  clan_tag ∉ map ClanModel.tag ms →
  (save_to_cache ms w).1 = Ok tt
  ∧ files (save_to_cache ms w).2 !! cache_file_path clan_tag
    = files w !! cache_file_path clan_tag
  ∧ cache_timestamp (save_to_cache ms w).2 = cache_timestamp w
  ∧ heap (save_to_cache ms w).2 = heap w.
Proof.
  intros Hn. rewrite save_to_cache_eq. simpl.
  split; [done|]. split; [by apply saved_lookup_other|done].
Qed.

(** X13. Only an API error leads to the cache: any other exception of the
    client leaves the fetch-or-fallback operation as it is, and the cache,
    the timestamp and the dictionaries are as before. *)
Theorem only_api_error_falls_back (e : env) (srv : Server) (w : world)
    (x : exn) :
  get_clans e (map RACFClan.tag (clans e srv)) = Raise x →
  x ≠ APIError →
  family_member_models e srv w = (Raise x, w).
Proof.
  intros Hapi Hx. rewrite family_member_models_eq. simpl. rewrite Hapi.
  by destruct x.
Qed.

(** X14. A live fetch returns the members of the answer with the cache
    flag off, stamps the settings with the current time and leaves a cache
    file for every model of the answer. *)
Theorem live_fetch_refreshes_cache (e : env) (srv : Server) (w : world)
    (ms : list ClanModel.t) :
  get_clans e (map RACFClan.tag (clans e srv)) = Ok ms →
  ∃ w',
    family_member_models e srv w = (Ok (collect_members ms, false), w')
    ∧ cache_timestamp w' = Some (utcnow e)
    ∧ heap w' = heap w
    ∧ Forall (λ m, cached (files w') (ClanModel.tag m)) ms.
Proof.
  intros Hapi. rewrite family_member_models_eq. simpl. rewrite Hapi.
  eexists. split; [reflexivity|]. simpl. split; [done|]. split; [done|].
  apply Forall_forall. intros m Hm. unfold cached.
  apply saved_is_Some. right.
  apply (list_elem_of_fmap_2 (λ m, cache_file_path (ClanModel.tag m))), Hm.
Qed.

(** X15. A fetch followed by an API failure: when the answer carried the
    requested tags, each once, and the model class rebuilds every model
    from its own [to_dict], the fallback returns the members of the earlier
    answer, flagged as cached. *)
Theorem fetch_then_fallback_same_members (e e' : env) (srv : Server)
    (w : world) (ms : list ClanModel.t) :
  config_clans e' = config_clans e →
  get_clans e (map RACFClan.tag (clans e srv)) = Ok ms →
  get_clans e' (map RACFClan.tag (clans e' srv)) = Raise APIError →
  map ClanModel.tag ms = map RACFClan.tag (clans e srv) →
  NoDup (map ClanModel.tag ms) →
  Forall (λ m, Clan (to_dict m) = m) ms →
  ∃ w',
    family_member_models e srv w = (Ok (collect_members ms, false), w')
    ∧ family_member_models e' srv w' = (Ok (collect_members ms, true), w').
Proof.
  intros Hcfg Hlive Hdown Htags Hnd Hcodec.
  assert (Hclans : map RACFClan.tag (clans e' srv)
                   = map RACFClan.tag (clans e srv)).
  { unfold clans. by rewrite Hcfg. }
  rewrite family_member_models_eq. simpl. rewrite Hlive.
  eexists. split; [reflexivity|].
  pose proof (fallback_reads_back_batch (files w) (heap w)
                (Some (utcnow e)) ms Hnd Hcodec) as Hload.
  rewrite load_from_cache_eq in Hload. cbn [files] in Hload.
  rewrite family_member_models_eq. cbn [files]. rewrite Hdown, Hclans, <- Htags.
  destruct (first_missing (saved (files w) ms) (map ClanModel.tag ms));
    [discriminate|].
  by injection Hload as ->.
Qed.

End FetchMore.

(** X16. The collected members are as many as the clan models hold
    together, and each carries as its clan the tag of a model of the batch;
    nothing else of a member changes. *)
Theorem collect_members_backrefs (clan_models : list ClanModel.t) :
  length (collect_members clan_models)
  = sum_list (map (λ c, length (ClanModel.members c)) clan_models)
  ∧ Forall (λ m, ∃ c m0,
                c ∈ clan_models ∧ m0 ∈ ClanModel.members c
                ∧ m = MemberModel.set_clan m0 (ClanModel.tag c))
           (collect_members clan_models).
Proof.
  unfold collect_members. split.
  - induction clan_models as [|c l IH]; simpl; [done|].
    by rewrite length_app, length_map, IH.
  - apply Forall_forall. intros m Hm.
    apply list_elem_of_In, in_flat_map in Hm as (c & Hc & Hm).
    apply in_map_iff in Hm as (m0 & <- & Hm0).
    exists c, m0. by rewrite <- !list_elem_of_In in *.
Qed.

(** ** More on the audit *)

Section LoopMore.
Context `{Crapipy}.
Context (e : env) (server : Server) (clans : list RACFClan.t) (ref : nat).

Let clans_out : OrderedDict.t nat :=
  OrderedDict.of_pairs (map (λ c, (RACFClan.name c, ref)) clans).

(** The loop stops at the first finding on a member of a clan that
    [clans_out] lacks. *)
Lemma for_each_raises (before after : list MemberModel.t)
    (m : MemberModel.t) (d : clan_dict) (w : world) :
  Forall (λ x, registered clans x ∨ finding e server clans x = false) before →
  ¬ registered clans m → finding e server clans m = true →
  heap w !! ref = Some d → has_categories d →
  for_each (audit_member e server clans clans_out) (before ++ m :: after) w
  = (Raise (KeyError (MemberModel.clan_name m)),
     set_heap w
       (<[ref := foldl (λ d x, record_member e server clans x d) d before]>
          (heap w))).
Proof.
  intros Hbefore Hm Hf. unfold clans_out. revert d w.
  induction Hbefore as [|x before Hx Hbefore IH]; intros d w Hw Hd; simpl.
  - rewrite bind_unfold.
    rewrite (audit_member_unregistered e server clans ref m w Hm), Hf.
    rewrite list_insert_id by done. by rewrite set_heap_id.
  - rewrite bind_unfold.
    destruct (decide (MemberModel.clan_name x ∈ map RACFClan.name clans))
      as [Hreg|Hreg].
    + rewrite (audit_member_registered e server clans ref x d Hreg Hd w Hw).
      rewrite (IH (record_member e server clans x d)).
      * unfold set_heap. simpl. by rewrite list_insert_insert_eq.
      * simpl. apply list_lookup_insert_eq. by apply lookup_lt_Some in Hw.
      * by apply has_categories_record_member.
    + destruct Hx as [Hx|Hx]; [done|].
      rewrite (audit_member_unregistered e server clans ref x w Hreg), Hx.
      rewrite (record_member_no_finding e server clans x d Hx). by apply IH.
Qed.

End LoopMore.

Lemma odict_set_keys {V} (d : OrderedDict.t V) (k : string) (v : V) :
  map fst (OrderedDict.set d k v)
  = if bool_decide (k ∈ map fst d) then map fst d else map fst d ++ [k].
Proof.
  induction d as [|[k' v'] d IH]; simpl; [done|].
  destruct (decide (k' = k)) as [->|Hne].
  - rewrite (bool_decide_eq_true_2 (k = k)) by done.
    rewrite bool_decide_eq_true_2; [done|by left].
  - rewrite (bool_decide_eq_false_2 (k' = k)) by done. simpl. rewrite IH.
    destruct (decide (k ∈ map fst d)) as [Hk|Hk].
    + rewrite (bool_decide_eq_true_2 (k ∈ map fst d)) by done.
      rewrite bool_decide_eq_true_2; [done|by right].
    + rewrite (bool_decide_eq_false_2 (k ∈ map fst d)) by done.
      rewrite bool_decide_eq_false_2; [done|].
      intros Hin. apply elem_of_cons in Hin as [->|Hin]; done.
Qed.

Lemma odict_fold_keys_NoDup {V} (pairs : list (string * V))
    (d : OrderedDict.t V) :
  NoDup (map fst d) →
  NoDup (map fst (foldl (λ d p, OrderedDict.set d p.1 p.2) d pairs)).
Proof.
  revert d. induction pairs as [|[k v] pairs IH]; intros d Hd; simpl; [done|].
  apply IH. rewrite odict_set_keys. case_bool_decide as Hk; [done|].
  apply NoDup_app. split; [done|]. split.
  - intros x Hx Hin. apply list_elem_of_singleton in Hin. by subst.
  - apply NoDup_singleton.
Qed.

Lemma odict_fold_keys_distinct {V} (pairs : list (string * V))
    (d : OrderedDict.t V) :
  NoDup (map fst d ++ map fst pairs) →
  map fst (foldl (λ d p, OrderedDict.set d p.1 p.2) d pairs)
  = map fst d ++ map fst pairs.
Proof.
  revert d. induction pairs as [|[k v] pairs IH]; intros d Hd; simpl.
  - by rewrite app_nil_r.
  - simpl in Hd. assert (Hk : k ∉ map fst d).
    { apply NoDup_app in Hd as (_ & Hdis & _). intros Hin.
      apply (Hdis k Hin). by left. }
    rewrite IH; rewrite odict_set_keys, bool_decide_eq_false_2 by done.
    + by rewrite <- app_assoc.
    + by rewrite <- app_assoc.
Qed.

Lemma length_filter_bool {A} (g : A → bool) (l : list A) :
  length (filter (λ x, g x = true) l) = 0 ↔ existsb g l = false.
Proof.
  induction l as [|a l IH]; simpl; [done|].
  rewrite filter_cons. destruct (g a) eqn:Ea; case_decide; try done; simpl.
Qed.

Section AuditMore.
Context `{Crapipy}.
Context (e : env) (server : Server) (clans : list RACFClan.t)
        (discord_users : DiscordUsers.t).

(** X17. A finding on a member whose clan name is not a clan name of the
    registry ends the audit with the [KeyError] of that clan name: no
    report is returned, whatever the members before and after it. *)
Theorem audit_unregistered_clan_raises (before after : list MemberModel.t)
    (m : MemberModel.t) (w : world) :
  Forall (λ x, registered clans x
               ∨ finding e server clans (linked discord_users x) = false)
         before →
  ¬ registered clans m →
  finding e server clans (linked discord_users m) = true →
  ∃ w',
    audit e server clans discord_users (map PyMember (before ++ m :: after)) w
    = (Raise (KeyError (MemberModel.clan_name m)), w').
Proof.
  intros Hbefore Hm Hf.
  unfold audit. rewrite bind_unfold, associate_members. unfold lift at 1.
  rewrite bind_unfold. unfold alloc at 1. rewrite bind_unfold.
  rewrite map_app. simpl map.
  erewrite (for_each_raises e server clans (length (heap w))
              (map (linked discord_users) before)
              (map (linked discord_users) after)
              (linked discord_users m) clan_defaults); eauto.
  - apply Forall_map. eapply Forall_impl; [exact Hbefore|]. by intros x Hx.
  - simpl. by apply list_lookup_middle.
  - apply has_categories_defaults.
Qed.

(** X18. A report has one entry for every distinct clan name of the
    registry and no other entry; with distinct clan names the entries
    follow the order of the registry. *)
Theorem report_entries_are_clan_names (ms : list MemberModel.t)
    (w w' : world) (r : report) :
  audit e server clans discord_users (map PyMember ms) w = (Ok r, w') →
  NoDup (map fst r)
  ∧ (∀ n, n ∈ map fst r ↔ n ∈ map RACFClan.name clans)
  ∧ (NoDup (map RACFClan.name clans) → map fst r = map RACFClan.name clans).
Proof.
  intros Hrun. apply audit_ok in Hrun. subst r. unfold expected_report.
  rewrite map_map. simpl.
  change (map (λ x : string * nat, x.1)) with (map (@fst string nat)).
  split; [|split].
  - apply odict_fold_keys_NoDup. constructor.
  - intros n. rewrite list_elem_of_fmap. split.
    + intros (p & -> & Hp). by apply clans_out_elem in Hp as [Hn _].
    + intros Hn. exists (n, length (heap w)). split; [done|].
      by apply clans_out_elem.
  - intros Hnd. unfold OrderedDict.of_pairs.
    rewrite odict_fold_keys_distinct; simpl; by rewrite map_map.
Qed.

Lemma m_out_length (m : MemberModel.t) :
  length (m_out e server clans m)
  = length (filter (λ field, category_test e server clans field m = true)
                   categories).
Proof.
  unfold m_out, categories. rewrite !filter_cons, filter_nil.
  unfold MemberAudit.api_is_elder, MemberAudit.api_is_coleader. simpl.
  destruct (MemberModel.discord_member m) as [user|] eqn:Eu.
  - rewrite (category_test_elder e server clans m user),
      (category_test_coleader e server clans m user),
      (category_test_clan_role e server clans m user) by done.
    rewrite category_test_no_discord, Eu, bool_decide_eq_false_2 by done.
    destruct (negb (MemberModel.role_is_elder m)
              && member_has_role server user "Elder"),
             (negb (MemberModel.role_is_coleader m)
              && member_has_role server user "Co-Leader"),
             (clan_name_to_role e server (MemberModel.clan_name m)) as [r|];
      try destruct (negb (existsb (role_eqb r) _));
      repeat case_decide; try done.
  - rewrite !category_test_unlinked by done.
    repeat case_decide; try done.
Qed.

(** X19. The texts of a member are as many as the categories whose test
    the member passes: one text for each finding. *)
Theorem m_out_one_text_per_finding (m : MemberModel.t) :
  length (m_out e server clans m)
  = length (filter (λ field, category_test e server clans field m = true)
                   categories).
Proof. apply m_out_length. Qed.

Lemma member_entry_finding (m : MemberModel.t) :
  is_Some (member_entry e server clans m) ↔ finding e server clans m = true.
Proof.
  unfold member_entry, finding.
  pose proof (length_filter_bool
                (λ field, category_test e server clans field m) categories)
    as Hlen.
  cbv beta in Hlen. rewrite <- m_out_length in Hlen.
  case_bool_decide as Hz.
  - apply Hlen in Hz. rewrite Hz. split; [by intros [? ?]|done].
  - split; [|by eexists]. intros _.
    destruct (existsb _ categories) eqn:Ex; [done|].
    exfalso. by apply Hz, Hlen.
Qed.

(** X20. In a run that returns a report, the line based output has an
    entry for a member exactly when some list of the report holds that
    member, and it has as many entries as there are members with a
    finding. *)
Theorem line_output_matches_report (ms : list MemberModel.t) (w w' : world)
    (r : report) :
  audit e server clans discord_users (map PyMember ms) w = (Ok r, w') →
  (∀ m, m ∈ ms →
        is_Some (member_entry e server clans (linked discord_users m))
        ↔ ∃ c field, recorded r c field (linked discord_users m))
  ∧ length (line_based_output e server clans
              (map (linked discord_users) ms))
    = length (filter (λ m, finding e server clans m = true)
                     (map (linked discord_users) ms)).
Proof.
  intros Hrun. split.
  - intros m Hm. rewrite member_entry_finding.
    pose proof (audit_ok e server clans discord_users ms w w' r Hrun) as ->.
    split.
    + intros Hf. unfold finding in Hf.
      apply existsb_exists in Hf as (field & Hfield & Ht).
      exists (MemberModel.clan_name m), field. apply recorded_expected.
      split; [by eapply audit_ok_findings|].
      split; [by apply list_elem_of_In|].
      split; [by apply list_elem_of_fmap_2|done].
    + intros (c & field & Hrec).
      apply recorded_expected in Hrec as (_ & _ & _ & Ht).
      by eapply finding_of_test.
  - unfold line_based_output.
    induction (map (linked discord_users) ms) as [|m l IH]; [done|].
    rewrite filter_cons.
    change (omap (member_entry e server clans) (m :: l))
      with (match member_entry e server clans m with
            | Some y => y :: omap (member_entry e server clans) l
            | None => omap (member_entry e server clans) l
            end).
    pose proof (member_entry_finding m) as Hm.
    destruct (member_entry e server clans m) as [line|].
    + case_decide as Hf; simpl; [by rewrite IH|].
      exfalso. apply Hf, Hm. by eexists.
    + case_decide as Hf; [|done].
      apply Hm in Hf. by destruct Hf.
Qed.

End AuditMore.

(** ** The clan based output *)

Lemma dict_get_insert_ne (d : clan_dict) (k field : string)
    (l : list MemberModel.t) :
  k ≠ field → dict_get (<[k := l]> d) field = dict_get d field.
Proof. intros Hne. unfold dict_get. by rewrite lookup_insert_ne. Qed.

(** X21. The clan based output shows the lists of elder promotions, of
    members without chat identity and of members without clan role; the
    list of co-leader promotions has no part in it, whatever it holds. *)
Theorem clan_based_output_ignores_coleaders (r : report)
    (l : list MemberModel.t) :
  clan_based_output
    (map (λ p : string * clan_dict,
            (p.1, <["coleader_promotion_req" := l]> p.2)) r)
  = clan_based_output r.
Proof.
  induction r as [|[n d] r IH]; simpl; [done|].
  rewrite !dict_get_insert_ne by done. by rewrite IH.
Qed.

Lemma clan_based_output_total (r : report) :
  Forall (λ p : string * clan_dict, has_categories p.2) r →
  ∃ out, clan_based_output r = Ok out
         ∧ Forall (λ p : string * clan_dict, ("**" +:+ p.1 +:+ "**") ∈ out) r.
Proof.
  induction 1 as [|[n d] r Hd Hr (out & IH & Hout)]; simpl.
  - exists []. split; [done|constructor].
  - simpl in Hd.
    assert (Hget : ∀ field, field ∈ categories →
                     ∃ l, dict_get d field = Ok l).
    { intros field Hf. unfold dict_get. destruct (Hd field Hf) as [l ->].
      by exists l. }
    destruct (Hget "elder_promotion_req") as [l1 ->];
      [unfold categories; repeat constructor|].
    destruct (Hget "no_discord") as [l2 ->];
      [unfold categories; repeat constructor|].
    destruct (Hget "no_clan_role") as [l3 ->];
      [unfold categories; repeat constructor|].
    rewrite IH. simpl. eexists. split; [reflexivity|].
    constructor.
    + simpl. by left.
    + eapply Forall_impl; [exact Hout|]. intros p Hp. simpl.
      right. rewrite !elem_of_app. by right.
Qed.

Section OutputOfAudit.
Context `{Crapipy}.

(** X22. The clan based output of a report the audit returned never fails
    on a missing category, and it has the heading of every clan of the
    report. *)
Theorem clan_based_output_of_report (e : env) (server : Server)
    (clans : list RACFClan.t) (discord_users : DiscordUsers.t)
    (ms : list MemberModel.t) (w w' : world) (r : report) :
  audit e server clans discord_users (map PyMember ms) w = (Ok r, w') →
  ∃ out, clan_based_output r = Ok out
         ∧ Forall (λ p : string * clan_dict, ("**" +:+ p.1 +:+ "**") ∈ out) r.
Proof.
  intros Hrun. apply clan_based_output_total.
  pose proof (audit_ok e server clans discord_users ms w w' r Hrun) as ->.
  apply Forall_forall. intros [n d] Hp.
  apply expected_elem in Hp as [_ ->]. simpl.
  intros field Hf. rewrite final_dict_lookup, bool_decide_eq_true_2 by done.
  by eexists.
Qed.

End OutputOfAudit.

(** ** Settings commands *)

(** X23. Setting a value for a server that has an entry in the settings
    stores the value under its key in that entry, keeps the other keys of
    the entry and every other entry, writes the document to the file and
    answers once. *)
Theorem update_server_settings_known_server (server_id key value : string)
    (st : settings_state) (d : gmap string string) :
  settings st !! server_id = Some (SettingDict d) →
  ∃ st' d',
    update_server_settings server_id key value st = (Ok tt, st')
    ∧ settings st' !! server_id = Some (SettingDict d')
    ∧ d' !! key = Some value
    ∧ (∀ k, k ≠ key → d' !! k = d !! k)
    ∧ (∀ id, id ≠ server_id → settings st' !! id = settings st !! id)
    ∧ settings_json st' = settings st'
    ∧ said st' = said st ++ ["Updated settings."].
Proof.
  intros Hs. unfold update_server_settings. rewrite Hs.
  eexists _, (<[key := value]> d). split; [reflexivity|]. simpl.
  split; [by rewrite lookup_insert_eq|].
  split; [by rewrite lookup_insert_eq|].
  split; [by intros k Hk; rewrite lookup_insert_ne|].
  split; [by intros id Hid; rewrite lookup_insert_ne|done].
Qed.

(** X24. A settings command for a server succeeds exactly when the
    settings hold a dictionary for the server id; otherwise it raises and
    the settings, the file and the answers are as before.  The settings
    are a plain dictionary, so a server without entry gets a [KeyError]. *)
Theorem update_server_settings_needs_entry (server_id key value : string)
    (st : settings_state) :
  ((update_server_settings server_id key value st).1 = Ok tt
   ↔ ∃ d, settings st !! server_id = Some (SettingDict d))
  ∧ ((update_server_settings server_id key value st).1 ≠ Ok tt →
     (update_server_settings server_id key value st).2 = st)
  ∧ (settings st !! server_id = None →
     (update_server_settings server_id key value st).1
     = Raise (KeyError server_id)).
Proof.
  unfold update_server_settings.
  destruct (settings st !! server_id) as [[s|d]|]; simpl.
  - split; [|done]. split; [done|]. by intros [d Hd].
  - split; [|split; done]. split; [by exists d|done].
  - split; [|done]. split; [done|]. by intros [d Hd].
Qed.

(** X25. Once the token is set, no settings command for a server changes
    it: a server id other than "auth" touches another entry, and the id
    "auth" fails on the string it finds there. *)
Theorem auth_survives_server_settings (token server_id key value : string)
    (st : settings_state) :
  auth (racfauditset_auth token st).2 = Some (SettingStr token)
  ∧ settings_json (racfauditset_auth token st).2
    = settings (racfauditset_auth token st).2
  ∧ auth (update_server_settings server_id key value
            (racfauditset_auth token st).2).2
    = Some (SettingStr token).
Proof.
  unfold auth, racfauditset_auth. simpl.
  split; [by rewrite lookup_insert_eq|]. split; [done|].
  unfold update_server_settings. simpl.
  destruct (decide (server_id = "auth")) as [->|Hne].
  - rewrite lookup_insert_eq. simpl. by rewrite lookup_insert_eq.
  - rewrite lookup_insert_ne by done.
    destruct (settings st !! server_id) as [[s|d]|]; simpl;
      rewrite ?lookup_insert_ne by done; by rewrite lookup_insert_eq.
Qed.

(** ** The search command *)

Lemma list_filter_sublist {A} (f : A → bool) (l : list A) :
  sublist (List.filter f l) l.
Proof.
  induction l as [|a l IH]; simpl; [constructor|].
  destruct (f a); by constructor.
Qed.

Section SearchFacts.
Context `{Crapipy}.
Context (lower : string → string) (unidecode_words : string → string).

Lemma clan_filter_elem (clan : option string) (l : list MemberModel.t)
    (m : MemberModel.t) :
  m ∈ clan_filter lower clan l
  ↔ m ∈ l
    ∧ ∀ c, clan = Some c → c ≠ "" →
           str_contains (lower c) (lower (MemberModel.clan_name m)) = true.
Proof.
  unfold clan_filter. destruct clan as [c|].
  - case_bool_decide as Hc.
    + split; [|by intros [? _]]. intros Hm. split; [done|].
      intros c' [= <-] Hne. done.
    + rewrite list_elem_of_In, filter_In, <- list_elem_of_In. split.
      * intros [Hm Ht]. split; [done|]. by intros c' [= <-] _.
      * intros [Hm Ht]. split; [done|]. by apply Ht.
  - split; [|by intros [? _]]. intros Hm. split; [done|]. by intros c' [=].
Qed.

(** X26. The results of a search are members of the fetched list, in its
    order, and a member is a result exactly when it passes every filter in
    force: the name filter unless the name is the placeholder "_", the clan
    filter when a non-empty clan is given, and the trophy range. *)
Theorem search_results_spec (pargs : SearchArgs)
    (member_models : list MemberModel.t) :
  sublist (search_results lower unidecode_words pargs member_models)
          member_models
  ∧ ∀ m,
      m ∈ search_results lower unidecode_words pargs member_models
      ↔ m ∈ member_models
        ∧ (arg_name pargs ≠ "_" →
           name_matches lower unidecode_words (arg_name pargs) m = true)
        ∧ (∀ c, arg_clan pargs = Some c → c ≠ "" →
                str_contains (lower c) (lower (MemberModel.clan_name m))
                = true)
        ∧ (arg_min pargs ≤ MemberModel.trophies m ≤ arg_max pargs)%Z.
Proof.
  unfold search_results. split.
  - set (named := if negb (bool_decide (arg_name pargs = "_"))
                  then List.filter
                         (name_matches lower unidecode_words (arg_name pargs))
                         member_models
                  else member_models).
    assert (H1 : sublist named member_models).
    { unfold named. case_bool_decide; simpl;
        [done|apply list_filter_sublist]. }
    assert (H2 : sublist (clan_filter lower (arg_clan pargs) named) named).
    { unfold clan_filter. destruct (arg_clan pargs) as [c|]; [|done].
      case_bool_decide; [done|apply list_filter_sublist]. }
    etrans; [apply list_filter_sublist|]. by etrans.
  - intros m.
    rewrite list_elem_of_In, filter_In, <- list_elem_of_In, clan_filter_elem.
    unfold in_trophy_range. rewrite andb_true_iff, !bool_decide_eq_true.
    case_bool_decide as Hn; simpl.
    + split.
      * intros [[Hm Hc] Hr]. repeat split; try done; lia.
      * intros (Hm & _ & Hc & Hr). repeat split; try done; lia.
    + rewrite list_elem_of_In, filter_In, <- list_elem_of_In. split.
      * intros [[[Hm Hnm] Hc] Hr]. repeat split; try done; lia.
      * intros (Hm & Hnm & Hc & Hr). repeat split; try done; try lia.
        by apply Hnm.
Qed.

End SearchFacts.

Section SearchCommand.
Context `{Crapipy}.
Context (lower : string → string) (unidecode_words : string → string).

Let search := racfaudit_search lower unidecode_words.
Let results_of := search_results lower unidecode_words.

(** The command in closed form. *)
Lemma racfaudit_search_run (e : env) (pargs : SearchArgs)
    (first_call : result (list ClanModel.t)) (w : world) :
  search e (Some pargs) first_call w
  = match first_call with
    | Raise x => (Raise x, w)
    | Ok _ =>
        match family_member_models e (ctx_server e) w with
        | (Raise x, w1) => (Raise x, w1)
        | (Ok (ms, is_cache), w1) =>
            (Ok (match is_cache, cache_timestamp w1 with
                 | true, None => [SayCannotLoad]
                 | _, _ =>
                     match is_cache, cache_timestamp w1 with
                     | true, Some t => [SayFromCache t]
                     | _, _ => []
                     end
                     ++ (if bool_decide (10 < length (results_of pargs ms))
                         then [SayTooMany 10] else [])
                     ++ (if bool_decide
                              (length (take 10 (results_of pargs ms)) = 0)
                         then [SayNoResults]
                         else [SayResults (take 10 (results_of pargs ms))
                                          (arg_link pargs)])
                 end),
             w1)
        end
    end.
Proof.
  unfold search, results_of, racfaudit_search.
  rewrite bind_unfold. unfold lift at 1.
  destruct first_call as [cl|x]; [|done].
  rewrite bind_unfold.
  destruct (family_member_models e (ctx_server e) w) as [[[ms ic]|x] w1];
    [|done].
  rewrite bind_unfold. unfold get_cache_timestamp at 1. simpl.
  set (rs := search_results lower unidecode_words pargs ms).
  assert (Hshown : (if bool_decide (10 < length rs) then take 10 rs else rs)
                   = take 10 rs).
  { case_bool_decide; [done|]. rewrite take_ge; [done|lia]. }
  rewrite Hshown.
  destruct ic, (cache_timestamp w1) as [t|]; try reflexivity;
    repeat case_bool_decide; simpl; try reflexivity;
    by rewrite <- ?app_assoc.
Qed.

(** X27. The search shows at most ten results: a results message carries
    the first ten results of the selection, never an empty list, and the
    link flag of the arguments. *)
Theorem search_shows_at_most_ten (e : env) (pargs : SearchArgs)
    (first_call : result (list ClanModel.t)) (w w' : world)
    (msgs : list message) (rs : list MemberModel.t) (link : bool) :
  search e (Some pargs) first_call w = (Ok msgs, w') →
  SayResults rs link ∈ msgs →
  0 < length rs ≤ 10
  ∧ link = arg_link pargs
  ∧ ∃ ms is_cache,
      family_member_models e (ctx_server e) w = (Ok (ms, is_cache), w')
      ∧ rs = take 10 (results_of pargs ms).
Proof.
  rewrite racfaudit_search_run. destruct first_call as [cl|x]; [|done].
  destruct (family_member_models e (ctx_server e) w) as [[[ms ic]|x] w1];
    [|done].
  intros [= <- <-] Hin.
  assert (Hrs : rs = take 10 (results_of pargs ms)
                ∧ link = arg_link pargs
                ∧ length (take 10 (results_of pargs ms)) ≠ 0).
  { destruct ic, (cache_timestamp w1) as [t|];
      repeat case_bool_decide;
      rewrite ?elem_of_app, ?elem_of_cons, ?elem_of_nil in Hin;
      destruct_or?; simplify_eq; try done; split; try done; lia. }
  destruct Hrs as (-> & -> & Hlen).
  split; [|split; [done|by exists ms, ic]].
  rewrite length_take in *. lia.
Qed.

(** X28. The search reaches the cache only between two calls of the API:
    a failure of the call that precedes the fetch ends the command with
    that exception and nothing changed; a message about cached results
    means that this call was answered and that the call of the fetch met an
    API error, and then nothing was written. *)
Theorem search_cache_needs_first_answer (e : env) (pargs : SearchArgs)
    (first_call : result (list ClanModel.t)) (w : world) :
  (∀ x, first_call = Raise x →
        search e (Some pargs) first_call w = (Raise x, w))
  ∧ ∀ msgs w',
      search e (Some pargs) first_call w = (Ok msgs, w') →
      SayCannotLoad ∈ msgs ∨ (∃ t, SayFromCache t ∈ msgs) →
      (∃ cl, first_call = Ok cl)
      ∧ get_clans e (map RACFClan.tag (clans e (ctx_server e)))
        = Raise APIError
      ∧ w' = w.
Proof.
  split.
  - intros x ->. by rewrite racfaudit_search_run.
  - intros msgs w'. rewrite racfaudit_search_run.
    destruct first_call as [cl|x]; [|done].
    pose proof (family_member_models_eq e (ctx_server e) w) as Heq.
    simpl in Heq.
    destruct (family_member_models e (ctx_server e) w) as [[[ms ic]|x] w1];
      [|done].
    intros [= <- <-] Hin.
    assert (Hic : ic = true).
    { destruct ic; [done|].
      destruct Hin as [Hin|[t Hin]];
        destruct (cache_timestamp w1); repeat case_bool_decide;
        rewrite ?elem_of_app, ?elem_of_cons, ?elem_of_nil in Hin;
        destruct_or?; simplify_eq; done. }
    subst ic. split; [by exists cl|].
    destruct (get_clans e _) as [live|[]]; try discriminate.
    destruct (first_missing _ _); [discriminate|].
    by injection Heq as _ ->.
Qed.

(** X29. The notice about too many results names the limit ten; it is
    sent only when the selection has more than ten members, and then it is
    followed at once by the results message, which closes the messages and
    carries exactly ten members, the first ten of the selection. *)
Theorem search_too_many_notice (e : env) (pargs : SearchArgs)
    (first_call : result (list ClanModel.t)) (w w' : world)
    (msgs : list message) (n : nat) :
  search e (Some pargs) first_call w = (Ok msgs, w') →
  SayTooMany n ∈ msgs →
  n = 10
  ∧ ∃ ms is_cache rs before,
      family_member_models e (ctx_server e) w = (Ok (ms, is_cache), w')
      ∧ 10 < length (results_of pargs ms)
      ∧ SayResults rs (arg_link pargs) ∈ msgs
      ∧ length rs = 10
      ∧ rs = take 10 (results_of pargs ms)
      ∧ msgs = before ++ [SayTooMany n; SayResults rs (arg_link pargs)].
Proof.
  rewrite racfaudit_search_run. destruct first_call as [cl|x]; [|done].
  destruct (family_member_models e (ctx_server e) w) as [[[ms ic]|x] w1];
    [|done].
  intros [= <- <-] Hin.
  assert (Hmany : n = 10 ∧ 10 < length (results_of pargs ms)).
  { destruct ic, (cache_timestamp w1) as [t|];
      repeat case_bool_decide;
      rewrite ?elem_of_app, ?elem_of_cons, ?elem_of_nil in Hin;
      destruct_or?; simplify_eq; try done; split; try done; lia. }
  destruct Hmany as [-> Hmany]. split; [done|].
  assert (Hlen : length (take 10 (results_of pargs ms)) = 10)
    by (rewrite length_take; lia).
  assert (Hnz : length (take 10 (results_of pargs ms)) ≠ 0) by lia.
  exists ms, ic, (take 10 (results_of pargs ms)).
  exists (match ic, cache_timestamp w1 with
          | true, Some t => [SayFromCache t]
          | _, _ => []
          end).
  split; [done|]. split; [done|].
  rewrite (bool_decide_eq_true_2 (10 < length (results_of pargs ms))) in *
    by done.
  rewrite (bool_decide_eq_false_2
             (length (take 10 (results_of pargs ms)) = 0)) in * by done.
  destruct ic, (cache_timestamp w1) as [t|];
    rewrite ?elem_of_app, ?elem_of_cons, ?elem_of_nil in *;
    destruct_or?; simplify_eq; simpl; auto 10.
Qed.

End SearchCommand.

(** ** Instances of the further properties *)

Section Witnesses2.
Import Scenario Scenario2.

Lemma resolved_identity_is_linked_member_witness :
  (DiscordUsers.tag_to_member (DiscordUsers.init table server) "t1").1
  = Some chat_x
  ∧ ∃ id, (id, "t1") ∈ table ∧ get_member server id = Some chat_x.
Proof.
  split; [reflexivity|].
  exact (resolved_identity_is_linked_member table server "t1" chat_x eq_refl).
Defined.

Lemma member_has_role_unknown_name_witness :
  Forall (λ r, role_name r ≠ "Co-Leader") (server_roles server)
  ∧ member_has_role server chat_x "Co-Leader" = false.
Proof.
  assert (Hnone : Forall (λ r, role_name r ≠ "Co-Leader")
                         (server_roles server))
    by (repeat constructor; discriminate).
  split; [exact Hnone|].
  exact (member_has_role_unknown_name server chat_x "Co-Leader" Hnone).
Defined.

Lemma clan_role_test_is_membership_witness :
  MemberModel.discord_member X_linked = Some chat_x
  ∧ clan_name_to_role env_alpha server (MemberModel.clan_name X_linked)
    = Some AlphaRole
  ∧ existsb (role_eqb AlphaRole)
            (MemberAudit.discord_clan_roles
               (MemberAudit.mk X_linked server (clans env_alpha server)))
    = existsb (role_eqb AlphaRole) (member_roles chat_x).
Proof.
  split; [reflexivity|]. split; [reflexivity|].
  exact (clan_role_test_is_membership env_alpha server X_linked chat_x
           AlphaRole eq_refl eq_refl).
Defined.

Lemma save_to_cache_keeps_other_files_witness :
  ("BBB" ∉ map ClanModel.tag [alpha])
  ∧ files (@save_to_cache snapshot_models [alpha] cached_world).2
      !! cache_file_path "BBB"
    = files cached_world !! cache_file_path "BBB".
Proof.
  assert (Hn : "BBB" ∉ map ClanModel.tag [alpha]).
  { simpl. intros Hin. apply list_elem_of_singleton in Hin. discriminate. }
  split; [exact Hn|].
  destruct (@save_to_cache_keeps_other_files snapshot_models [alpha]
              cached_world "BBB" Hn) as (_ & Hfile & _).
  exact Hfile.
Defined.

Lemma only_api_error_falls_back_witness :
  get_clans env_broken (map RACFClan.tag (clans env_broken server))
  = Raise (OtherError "timeout")
  ∧ OtherError "timeout" ≠ APIError
  ∧ @family_member_models snapshot_models env_broken server cached_world
    = (Raise (OtherError "timeout"), cached_world).
Proof.
  assert (Hx : OtherError "timeout" ≠ APIError) by discriminate.
  split; [reflexivity|]. split; [exact Hx|].
  exact (@only_api_error_falls_back snapshot_models env_broken server
           cached_world _ eq_refl Hx).
Defined.

Lemma live_fetch_refreshes_cache_witness :
  get_clans env_alpha (map RACFClan.tag (clans env_alpha server)) = Ok [alpha]
  ∧ ∃ w',
      @family_member_models snapshot_models env_alpha server cached_world
      = (Ok (collect_members [alpha], false), w')
      ∧ cache_timestamp w' = Some (utcnow env_alpha)
      ∧ heap w' = heap cached_world
      ∧ Forall (λ m, cached (files w') (ClanModel.tag m)) [alpha].
Proof.
  split; [reflexivity|].
  exact (@live_fetch_refreshes_cache snapshot_models env_alpha server
           cached_world [alpha] eq_refl).
Defined.

Lemma fetch_then_fallback_same_members_witness :
  config_clans env_alpha_down = config_clans env_alpha
  ∧ NoDup (map ClanModel.tag [alpha])
  ∧ ∃ w',
      @family_member_models snapshot_models env_alpha server empty_world
      = (Ok (collect_members [alpha], false), w')
      ∧ @family_member_models snapshot_models env_alpha_down server w'
        = (Ok (collect_members [alpha], true), w').
Proof.
  assert (Hnd : NoDup (map ClanModel.tag [alpha]))
    by (simpl; apply NoDup_singleton).
  assert (Hcodec : Forall (λ m, @Clan snapshot_models
                                  (@to_dict snapshot_models m) = m) [alpha])
    by (repeat constructor).
  split; [reflexivity|]. split; [exact Hnd|].
  exact (@fetch_then_fallback_same_members snapshot_models env_alpha
           env_alpha_down server empty_world [alpha] eq_refl eq_refl eq_refl
           eq_refl Hnd Hcodec).
Defined.

Lemma audit_unregistered_clan_raises_witness :
  ¬ registered (clans env_alpha server) Z_fetched
  ∧ finding env_alpha server (clans env_alpha server) (linked users Z_fetched)
    = true
  ∧ ∃ w',
      @audit snapshot_models env_alpha server (clans env_alpha server) users
             (map PyMember ([X_fetched] ++ Z_fetched :: [])) empty_world
      = (Raise (KeyError "Bravo"), w').
Proof.
  assert (Hm : ¬ registered (clans env_alpha server) Z_fetched).
  { unfold registered. simpl. intros Hin.
    apply list_elem_of_singleton in Hin. discriminate. }
  assert (Hbefore : Forall (λ x, registered (clans env_alpha server) x
                                 ∨ finding env_alpha server
                                     (clans env_alpha server) (linked users x)
                                   = false) [X_fetched]).
  { repeat constructor. }
  split; [exact Hm|]. split; [reflexivity|].
  exact (@audit_unregistered_clan_raises snapshot_models env_alpha server
           (clans env_alpha server) users [X_fetched] [] Z_fetched empty_world
           Hbefore Hm eq_refl).
Defined.

Lemma alpha_run :
  @audit snapshot_models env_alpha server (clans env_alpha server) users
         (map PyMember [X_fetched]) empty_world
  = (Ok [("Alpha", alpha_dict)], mkWorld ∅ None [alpha_dict]).
Proof. vm_compute. reflexivity. Defined.

Lemma report_entries_are_clan_names_witness :
  @audit snapshot_models env_alpha server (clans env_alpha server) users
         (map PyMember [X_fetched]) empty_world
  = (Ok [("Alpha", alpha_dict)], mkWorld ∅ None [alpha_dict])
  ∧ NoDup (map fst [("Alpha", alpha_dict)])
  ∧ (∀ n, n ∈ map fst [("Alpha", alpha_dict)]
          ↔ n ∈ map RACFClan.name (clans env_alpha server)).
Proof.
  split; [exact alpha_run|].
  destruct (@report_entries_are_clan_names snapshot_models env_alpha server
              (clans env_alpha server) users [X_fetched] empty_world _ _
              alpha_run) as (Hnd & Hnames & _).
  split; [exact Hnd|exact Hnames].
Defined.

Lemma line_output_matches_report_witness :
  @audit snapshot_models env_alpha server (clans env_alpha server) users
         (map PyMember [X_fetched]) empty_world
  = (Ok [("Alpha", alpha_dict)], mkWorld ∅ None [alpha_dict])
  ∧ length (line_based_output env_alpha server (clans env_alpha server)
              (map (linked users) [X_fetched]))
    = length (filter (λ m, finding env_alpha server (clans env_alpha server) m
                           = true)
                     (map (linked users) [X_fetched])).
Proof.
  split; [exact alpha_run|].
  destruct (@line_output_matches_report snapshot_models env_alpha server
              (clans env_alpha server) users [X_fetched] empty_world _ _
              alpha_run) as [_ Hlen].
  exact Hlen.
Defined.

Lemma clan_based_output_of_report_witness :
  @audit snapshot_models env_alpha server (clans env_alpha server) users
         (map PyMember [X_fetched]) empty_world
  = (Ok [("Alpha", alpha_dict)], mkWorld ∅ None [alpha_dict])
  ∧ ∃ out, clan_based_output [("Alpha", alpha_dict)] = Ok out
           ∧ Forall (λ p : string * clan_dict, ("**" +:+ p.1 +:+ "**") ∈ out)
                    [("Alpha", alpha_dict)].
Proof.
  split; [exact alpha_run|].
  exact (@clan_based_output_of_report snapshot_models env_alpha server
           (clans env_alpha server) users [X_fetched] empty_world _ _
           alpha_run).
Defined.

(** The texts of the scenario of clan "Alpha". *)
Example alpha_texts :
  line_based_output env_alpha server (clans env_alpha server) [X_linked]
  = ["**X** Alpha" +:+ newline
     +:+ ":warning: Has Elder role but not promoted in clan." +:+ newline
     +:+ ":warning: Does not have AlphaRole"]
  ∧ clan_based_output [("Alpha", alpha_dict)]
    = Ok ["**Alpha**"; "Elders that need to be promoted:"; "X";
          "No clan role on Discord:"; "X"].
Proof. split; reflexivity. Qed.

Lemma update_server_settings_known_server_witness :
  settings one_server !! "264119826069454849" = Some (SettingDict ∅)
  ∧ ∃ st' d',
      racfauditset_elder "264119826069454849" "Elder" one_server = (Ok tt, st')
      ∧ settings st' !! "264119826069454849" = Some (SettingDict d')
      ∧ d' !! "elder" = Some "Elder".
Proof.
  assert (Hs : settings one_server !! "264119826069454849"
               = Some (SettingDict ∅)) by reflexivity.
  split; [exact Hs|].
  destruct (update_server_settings_known_server "264119826069454849" "elder"
              "Elder" one_server ∅ Hs)
    as (st' & d' & Hrun & Hentry & Hkey & _).
  exists st', d'. split; [exact Hrun|]. split; [exact Hentry|exact Hkey].
Defined.

Lemma search_alpha_run :
  @racfaudit_search snapshot_models id id env_alpha (Some any_member)
    (Ok [alpha]) empty_world
  = (Ok [SayResults [X_fetched] false], fetched_world).
Proof. vm_compute. reflexivity. Defined.

Lemma search_shows_at_most_ten_witness :
  @racfaudit_search snapshot_models id id env_alpha (Some any_member)
    (Ok [alpha]) empty_world
  = (Ok [SayResults [X_fetched] false], fetched_world)
  ∧ SayResults [X_fetched] false ∈ [SayResults [X_fetched] false]
  ∧ 0 < length [X_fetched] ≤ 10.
Proof.
  assert (Hin : SayResults [X_fetched] false
                ∈ [SayResults [X_fetched] false]) by (by left).
  split; [exact search_alpha_run|]. split; [exact Hin|].
  destruct (@search_shows_at_most_ten snapshot_models id id env_alpha
              any_member (Ok [alpha]) empty_world fetched_world _ _ _
              search_alpha_run Hin) as [Hlen _].
  exact Hlen.
Defined.

Lemma search_crowd_run :
  @racfaudit_search snapshot_models id id env_crowd (Some any_member)
    (Ok [crowd]) empty_world
  = (Ok [SayTooMany 10;
         SayResults (take 10 (collect_members [crowd])) false],
     crowd_world).
Proof. vm_compute. reflexivity. Defined.

Lemma search_too_many_notice_witness :
  @racfaudit_search snapshot_models id id env_crowd (Some any_member)
    (Ok [crowd]) empty_world
  = (Ok [SayTooMany 10;
         SayResults (take 10 (collect_members [crowd])) false],
     crowd_world)
  ∧ ∃ ms is_cache (rs : list MemberModel.t),
      @family_member_models snapshot_models env_crowd (ctx_server env_crowd)
        empty_world
      = (Ok (ms, is_cache), crowd_world)
      ∧ 10 < length (search_results id id any_member ms)
      ∧ length rs = 10.
Proof.
  assert (Hin : SayTooMany 10
                ∈ [SayTooMany 10;
                   SayResults (take 10 (collect_members [crowd])) false])
    by (by left).
  split; [exact search_crowd_run|].
  destruct (@search_too_many_notice snapshot_models id id env_crowd
              any_member (Ok [crowd]) empty_world crowd_world _ 10
              search_crowd_run Hin)
    as (_ & ms & ic & rs & before & Hrun & Hmany & _ & Hlen & _).
  exists ms, ic, rs. split; [exact Hrun|]. split; [exact Hmany|exact Hlen].
Defined.

End Witnesses2.

(** ** Identity resolution on the player table *)

Section LinkerOnTable.
Import DiscordUsers.

Lemma scan_build_first (srv : Server) (players : list (string * string))
    (tag : string) :
  match scan (build srv players) tag with
  | Some u =>
      ∃ before id after,
        players = before ++ (id, tag) :: after
        ∧ get_member srv id = Some u
        ∧ Forall (λ p, p.2 = tag → get_member srv p.1 = None) before
  | None => Forall (λ p, p.2 = tag → get_member srv p.1 = None) players
  end.
Proof.
  induction players as [|[id tg] players IH]; simpl; [constructor|].
  destruct (get_member srv id) as [u|] eqn:Eu; simpl.
  - case_bool_decide as Et.
    + subst tg. exists [], id, players. repeat split; auto.
    + destruct (scan (build srv players) tag) as [u'|].
      * destruct IH as (before & id' & after & -> & Hu' & Hb).
        exists ((id, tg) :: before), id', after. repeat split; auto.
        constructor; [|done]. simpl. by intros ->.
      * constructor; [|done]. simpl. by intros ->.
  - destruct (scan (build srv players) tag) as [u'|].
    + destruct IH as (before & id' & after & -> & Hu' & Hb).
      exists ((id, tg) :: before), id', after. repeat split; auto.
    + constructor; [|done]. done.
Qed.

(** C8, as the code has it. On an object as the constructor or an earlier
    resolution left it, [tag_to_member] returns the server member of the
    first entry of the player table whose tag is the queried tag and whose
    member id is on the server, and none when the table has no such entry:
    entries of ids that are not on the server are passed over.  The result
    is an option, never an error, also when several entries carry the
    tag. *)
Theorem tag_to_member_first_on_server (self : t) (tag : string) :
  consistent self →
  match (tag_to_member self tag).1 with
  | Some u =>
      ∃ before id after,
        crclan_players self = before ++ (id, tag) :: after
        ∧ get_member (server self) id = Some u
        ∧ Forall (λ p, p.2 = tag → get_member (server self) p.1 = None)
                 before
  | None =>
      Forall (λ p, p.2 = tag → get_member (server self) p.1 = None)
             (crclan_players self)
  end.
Proof.
  intros Hc. apply user_list_consistent in Hc as [Hl _].
  unfold tag_to_member. destruct (user_list self) as [l self'].
  simpl in *. subst l. apply scan_build_first.
Qed.

End LinkerOnTable.

Section Revision.
Import Scenario Scenario2.

Lemma tag_to_member_first_on_server_witness :
  DiscordUsers.consistent (DiscordUsers.init ghost_table server)
  ∧ (DiscordUsers.tag_to_member (DiscordUsers.init ghost_table server) "t1").1
    = Some chat_y
  ∧ ∃ before id after,
      ghost_table = before ++ (id, "t1") :: after
      ∧ get_member server id = Some chat_y
      ∧ Forall (λ p, p.2 = "t1" → get_member server p.1 = None) before.
Proof.
  assert (Hc : DiscordUsers.consistent (DiscordUsers.init ghost_table server))
    by (by left).
  split; [exact Hc|]. split; [reflexivity|].
  exact (tag_to_member_first_on_server
           (DiscordUsers.init ghost_table server) "t1" Hc).
Defined.

(** C8, as stated, fails on the player table.  The first entry for "t1"
    names "ghost", who is not on the server: resolution returns the member
    of the second entry; and with that entry alone it returns none although
    an entry carries the tag. *)
Lemma first_association_not_on_server :
  find (λ p : string * string, bool_decide (p.2 = "t1")) ghost_table
  = Some ("ghost", "t1")
  ∧ get_member server "ghost" = None
  ∧ (DiscordUsers.tag_to_member (DiscordUsers.init ghost_table server) "t1").1
    = Some chat_y
  ∧ member_id chat_y = "u2"
  ∧ (DiscordUsers.tag_to_member
       (DiscordUsers.init [("ghost", "t1")] server) "t1").1
    = None.
Proof. repeat split; reflexivity. Qed.

End Revision.

(** ** The run command on the scenarios *)

Section RunScenarios.
Import Scenario Scenario2.
Context `{Crapipy}.

(** A run whose fetch is answered: the cache is written, then the
    association loop fails on the member list of the pair. *)
Lemma racfaudit_run_after_fetch (e : env) (w : world)
    (ms : list ClanModel.t) :
  get_clans e (map RACFClan.tag (clans e (ctx_server e))) = Ok ms →
  ∃ w',
    family_member_models e (ctx_server e) w
    = (Ok (collect_members ms, false), w')
    ∧ racfaudit_run e w = (Raise (AttributeError "list" "tag"), w')
    ∧ heap w' = heap w.
Proof.
  intros Hapi. unfold racfaudit_run. rewrite bind_unfold.
  rewrite family_member_models_eq. simpl. rewrite Hapi.
  eexists. split; [reflexivity|]. split; reflexivity.
Qed.

(** C7, on the command. The scenario of clan "Alpha": the registry maps
    "Alpha" to "AlphaRole", t1 resolves to a chat identity that holds
    "Elder" and not "AlphaRole", and the fetch returns the one member X.
    The run command ends in [AttributeError] on the member list and builds
    no report: no dictionary is created. *)
Theorem scenario_alpha_run_raises (w : world) :
  clan_name_to_role env_alpha server "Alpha" = Some AlphaRole
  ∧ (DiscordUsers.tag_to_member
       (DiscordUsers.init (players env_alpha) (ctx_server env_alpha)) "t1").1
    = Some chat_x
  ∧ member_has_role server chat_x "Elder" = true
  ∧ member_has_role server chat_x "AlphaRole" = false
  ∧ ∃ w',
      family_member_models env_alpha (ctx_server env_alpha) w
      = (Ok ([X_fetched], false), w')
      ∧ racfaudit_run env_alpha w = (Raise (AttributeError "list" "tag"), w')
      ∧ heap w' = heap w.
Proof.
  do 4 (split; [reflexivity|]).
  exact (racfaudit_run_after_fetch env_alpha w [alpha] eq_refl).
Qed.

(** C5, on the command. X is fetched for clan "Alpha", its clan role is
    not elder, its tag resolves to a chat identity and that identity holds
    "Elder"; the run command ends in [AttributeError] before any
    dictionary exists, so X is recorded nowhere. *)
Theorem run_records_no_elder_promotion (w : world) :
  MemberModel.role X_fetched ≠ role_elder
  ∧ (∃ user,
       (DiscordUsers.tag_to_member
          (DiscordUsers.init (players env_alpha) (ctx_server env_alpha))
          (MemberModel.tag X_fetched)).1 = Some user
       ∧ member_has_role (ctx_server env_alpha) user "Elder" = true)
  ∧ ∃ w',
      family_member_models env_alpha (ctx_server env_alpha) w
      = (Ok ([X_fetched], false), w')
      ∧ racfaudit_run env_alpha w = (Raise (AttributeError "list" "tag"), w')
      ∧ heap w' = heap w.
Proof.
  split; [discriminate|]. split; [by exists chat_x|].
  exact (racfaudit_run_after_fetch env_alpha w [alpha] eq_refl).
Qed.

(** C6, on the command. Z is fetched for clan "Bravo" and its tag
    resolves to no chat identity; the run command ends in
    [AttributeError] before any dictionary exists, so Z is not recorded
    under no_discord. *)
Theorem run_records_no_unlinked_member (w : world) :
  (DiscordUsers.tag_to_member
     (DiscordUsers.init (players env_bravo) (ctx_server env_bravo))
     (MemberModel.tag Z_fetched)).1 = None
  ∧ ∃ w',
      family_member_models env_bravo (ctx_server env_bravo) w
      = (Ok ([Z_fetched], false), w')
      ∧ racfaudit_run env_bravo w = (Raise (AttributeError "list" "tag"), w')
      ∧ heap w' = heap w.
Proof.
  split; [reflexivity|].
  exact (racfaudit_run_after_fetch env_bravo w [bravo] eq_refl).
Qed.



End RunScenarios.

Section Witnesses3.
Import Scenario Scenario2.

Lemma trio_run :
  @audit snapshot_models env_family server (clans env_family server) users
         (map PyMember [X_fetched; Z_fetched; W_fetched]) empty_world
  = (Ok [("Alpha", trio_dict); ("Bravo", trio_dict)],
     mkWorld ∅ None [trio_dict]).
Proof. vm_compute. reflexivity. Defined.

(** Two clans and three members, two of them without chat identity: the
    list no_discord of clan "Alpha" holds Z and W in the order of the
    input. *)
Lemma category_lists_keep_input_order_witness :
  @audit snapshot_models env_family server (clans env_family server) users
         (map PyMember [X_fetched; Z_fetched; W_fetched]) empty_world
  = (Ok [("Alpha", trio_dict); ("Bravo", trio_dict)],
     mkWorld ∅ None [trio_dict])
  ∧ category_list [("Alpha", trio_dict); ("Bravo", trio_dict)]
                  "Alpha" "no_discord" [Z_linked; W_linked]
  ∧ [Z_linked; W_linked]
    = matching env_family server (clans env_family server) "no_discord"
               (map (linked users) [X_fetched; Z_fetched; W_fetched])
  ∧ sublist [Z_linked; W_linked]
            (map (linked users) [X_fetched; Z_fetched; W_fetched]).
Proof.
  assert (Hlist : category_list [("Alpha", trio_dict); ("Bravo", trio_dict)]
                                "Alpha" "no_discord" [Z_linked; W_linked]).
  { exists trio_dict. split; [by left|]. vm_compute. reflexivity. }
  split; [exact trio_run|]. split; [exact Hlist|].
  exact (@category_lists_keep_input_order snapshot_models env_family server
           (clans env_family server) users [X_fetched; Z_fetched; W_fetched]
           empty_world _ _ trio_run "Alpha" "no_discord" [Z_linked; W_linked]
           Hlist).
Defined.

End Witnesses3.
